(** * Solar dashboard: the metrics pipeline of [public/app.js]

    A shallow embedding of the client-side pipeline of the dashboard:
    [updateMetrics] (gauge banding), [updateTimeSeries] (daily power
    curve), [updateYearlyYield] (record normaliser and yearly reducer) and
    [fetchData] (the refresh cycle).

    Conventions of the embedding.
    - A JavaScript number is an exact rational ([Q]); a number the code has
      passed through [Math.round] is an integer ([Z]); [NaN] is [None] in
      an [option].  Statements on [Q] and [Z] are statements of exact
      arithmetic.  The gauge banding is given a second time on IEEE
      doubles ([Double], on primitive floats), where the sum of its bands
      depends on the rounding.
    - A JSON object of unknown shape is a finite map from property names
      to JSON values ([gmap string JsVal]); a missing property reads as
      [JUndefined].
    - The page and its charts are a record [Dashboard] that the update
      functions transform; a thrown exception is the outcome [Throw], and
      the refresh cycle runs in the monad [Cycle] of page and outcome.
      The cycle is given on payloads of the documented shape
      ([fetchData]) and on payloads of any shape ([fetchDataRaw]), where
      a transform can throw on a missing [data] or a [null] element.
    - The wall clock ([new Date().getFullYear()]), the locale formatting
      of a time of day and the conversion of a string to a number are
      parameters.  The spinners and the refresh time stamp of the page,
      which no transform reads, are left out of [Dashboard]. *)

From Stdlib Require Import ZArith QArith Qround Qminmax Lqa Lia.
From Stdlib Require Import List Sorting.Sorted Sorting.Permutation.
From stdpp Require Import gmap strings list pretty.
From Corelib Require PrimFloat.
Import ListNotations.

Local Open Scope Z_scope.

(** ** Outcomes: a value, or a thrown exception *)

Inductive Outcome (A : Type) : Type :=
| Return (a : A)
| Throw (msg : string).

Arguments Return {A} a.
Arguments Throw {A} msg.

Definition bindO {A B : Type} (m : Outcome A) (k : A -> Outcome B) : Outcome B :=
  match m with
  | Return a => k a
  | Throw msg => Throw msg
  end.

Notation "'let!' x ':=' m 'in' k" := (bindO m (fun x => k))
  (at level 10, x name, m at level 100, k at level 200).

(** ** The JavaScript operations the pipeline uses *)

Module Js.

(** [Math.round]: the nearest integer, halves rounded towards
    [+Infinity]. *)
Definition round (x : Q) : Z := Qfloor (x + (1 # 2))%Q.

(** [x < y] on numbers. *)
Definition ltb (x y : Q) : bool := negb (Qle_bool y x).

(** [x || 0] on an optional number: [undefined], [null] and [0] are
    falsy. *)
Definition or_zero (x : option Q) : Q :=
  match x with
  | Some q => if Qeq_bool q 0 then 0%Q else q
  | None => 0%Q
  end.

(** Arithmetic on integers that may be [NaN] ([None]): [a - b],
    [a + b], [Math.max(0, a)]. *)
Definition sub (a b : option Z) : option Z :=
  match a, b with
  | Some x, Some y => Some (x - y)
  | _, _ => None
  end.

Definition add (a b : option Z) : option Z :=
  match a, b with
  | Some x, Some y => Some (x + y)
  | _, _ => None
  end.

Definition max0 (a : option Z) : option Z :=
  match a with
  | Some x => Some (Z.max 0 x)
  | None => None
  end.

(** [total / count], the count being a length. *)
Definition div_length (total : option Z) (count : nat) : option Q :=
  match total with
  | Some t => Some (inject_Z t / inject_Z (Z.of_nat count))%Q
  | None => None
  end.

(** The values a property of a parsed JSON object can hold, as far as
    the pipeline looks at them (a nested object or array as the value of
    a property is not modelled), and the [NaN] its own arithmetic can
    produce. *)
Inductive JsVal : Type :=
| JUndefined
| JNull
| JBool (b : bool)
| JNum (q : Q)
| JNaN
| JStr (s : string).

(** [a ?? b]: [b] when [a] is [null] or [undefined]. *)
Definition nullish (v : JsVal) : bool :=
  match v with
  | JUndefined | JNull => true
  | _ => false
  end.

Definition coalesce (a b : JsVal) : JsVal := if nullish a then b else a.

(** [a || b]: [b] when [a] is falsy. *)
Definition truthy (v : JsVal) : bool :=
  match v with
  | JUndefined | JNull | JNaN => false
  | JBool b => b
  | JNum q => negb (Qeq_bool q 0)
  | JStr s => negb (String.eqb s "")
  end.

Definition or_else (a b : JsVal) : JsVal := if truthy a then a else b.

(** Strict equality [a === b]. *)
Definition strict_eq (a b : JsVal) : bool :=
  match a, b with
  | JUndefined, JUndefined => true
  | JNull, JNull => true
  | JBool x, JBool y => Bool.eqb x y
  | JNum x, JNum y => Qeq_bool x y
  | JStr x, JStr y => String.eqb x y
  | _, _ => false
  end.

(** A property read [item.key]. *)
Definition get (item : gmap string JsVal) (key : string) : JsVal :=
  match item !! key with
  | Some v => v
  | None => JUndefined
  end.

(** [Number(v)], also the conversion the arithmetic operators apply;
    [StringToNumber] is the conversion of a string, [None] is [NaN]. *)
Definition Number (StringToNumber : string -> option Q) (v : JsVal) : option Q :=
  match v with
  | JUndefined | JNaN => None
  | JNull => Some 0%Q
  | JBool true => Some 1%Q
  | JBool false => Some 0%Q
  | JNum q => Some q
  | JStr s => StringToNumber s
  end.

(** An integer that may be [NaN], as a value. *)
Definition of_int (z : option Z) : JsVal :=
  match z with
  | Some x => JNum (inject_Z x)
  | None => JNaN
  end.

(** [array[i].field]: reading a property of [undefined] throws. *)
Definition at_index {A : Type} (l : list A) (i : nat) : Outcome A :=
  match l !! i with
  | Some x => Return x
  | None => Throw "TypeError: Cannot read properties of undefined"
  end.

(** [Array.prototype.sort(cmp)], a stable sort; [lt a b] says that the
    comparator's result on [(a, b)] is negative (a [NaN] result counts
    as zero).  Insertion from the right, before the first element that
    is not smaller, keeps equal elements in their original order. *)
Fixpoint insert_sorted {A : Type} (lt : A -> A -> bool) (x : A) (l : list A) : list A :=
  match l with
  | [] => [x]
  | y :: l' => if lt y x then y :: insert_sorted lt x l' else x :: l
  end.

Fixpoint sort {A : Type} (lt : A -> A -> bool) (l : list A) : list A :=
  match l with
  | [] => []
  | x :: l' => insert_sorted lt x (sort lt l')
  end.

(** [array.map((x, idx) => f x idx)], the callback possibly throwing. *)
Fixpoint mapi_from {A B : Type} (i : nat) (f : A -> nat -> Outcome B) (l : list A)
  : Outcome (list B) :=
  match l with
  | [] => Return []
  | x :: l' =>
      let! y := f x i in
      let! ys := mapi_from (S i) f l' in
      Return (y :: ys)
  end.

Definition mapi {A B : Type} (f : A -> nat -> Outcome B) (l : list A) : Outcome (list B) :=
  mapi_from 0 f l.

(** [array.filter((x, idx) => p x idx)], the callback possibly
    throwing. *)
Fixpoint filteri_from {A : Type} (i : nat) (p : A -> nat -> Outcome bool) (l : list A)
  : Outcome (list A) :=
  match l with
  | [] => Return []
  | x :: l' =>
      let! keep := p x i in
      let! xs := filteri_from (S i) p l' in
      Return (if keep : bool then x :: xs else xs)
  end.

Definition filteri {A : Type} (p : A -> nat -> Outcome bool) (l : list A) : Outcome (list A) :=
  filteri_from 0 p l.

(** [array.reduce((a, b) => a + b, 0)]. *)
Definition reduce_add (l : list (option Z)) : option Z :=
  fold_left add l (Some 0).

End Js.

Import Js.

(** ** The page: charts, overlays and the error banner *)

Record GaugeBands : Type := mkGaugeBands {
  normalPct : Q;
  warningPct : Q;
  criticalPct : Q;
  remainingPct : Q
}.

(** [labels] and [datasets[0].data] of the line chart. *)
Record TimeSeriesChart : Type := mkTimeSeriesChart {
  tsLabels : list string;
  tsData : list Z
}.

(** [labels], [datasets[0].data] and, once set, [datasets[1].data] (the
    mean line) of the bar chart. *)
Record YearlyChart : Type := mkYearlyChart {
  yLabels : list JsVal;
  yData : list (option Z);
  yMeanLine : option (list (option Q))
}.

Record Overlay : Type := mkOverlay {
  innerHTML : string;
  active : bool
}.

(** A chart is [None] while its variable is [null]; an overlay is [None]
    when the page has no such element. *)
Record Dashboard : Type := mkDashboard {
  powerValue : Z;
  yieldValue : Z;
  powerGaugeChart : option GaugeBands;
  powerTimeSeriesChart : option TimeSeriesChart;
  yearlyYieldChart : option YearlyChart;
  powerChartOverlay : option Overlay;
  yearlyChartOverlay : option Overlay;
  errorContainer : string
}.

Definition set_powerValue (v : Z) (d : Dashboard) : Dashboard :=
  {| powerValue := v;
     yieldValue := yieldValue d;
     powerGaugeChart := powerGaugeChart d;
     powerTimeSeriesChart := powerTimeSeriesChart d;
     yearlyYieldChart := yearlyYieldChart d;
     powerChartOverlay := powerChartOverlay d;
     yearlyChartOverlay := yearlyChartOverlay d;
     errorContainer := errorContainer d |}.

Definition set_yieldValue (v : Z) (d : Dashboard) : Dashboard :=
  {| powerValue := powerValue d;
     yieldValue := v;
     powerGaugeChart := powerGaugeChart d;
     powerTimeSeriesChart := powerTimeSeriesChart d;
     yearlyYieldChart := yearlyYieldChart d;
     powerChartOverlay := powerChartOverlay d;
     yearlyChartOverlay := yearlyChartOverlay d;
     errorContainer := errorContainer d |}.

Definition set_powerGaugeChart (v : option GaugeBands) (d : Dashboard) : Dashboard :=
  {| powerValue := powerValue d;
     yieldValue := yieldValue d;
     powerGaugeChart := v;
     powerTimeSeriesChart := powerTimeSeriesChart d;
     yearlyYieldChart := yearlyYieldChart d;
     powerChartOverlay := powerChartOverlay d;
     yearlyChartOverlay := yearlyChartOverlay d;
     errorContainer := errorContainer d |}.

Definition set_powerTimeSeriesChart (v : option TimeSeriesChart) (d : Dashboard) : Dashboard :=
  {| powerValue := powerValue d;
     yieldValue := yieldValue d;
     powerGaugeChart := powerGaugeChart d;
     powerTimeSeriesChart := v;
     yearlyYieldChart := yearlyYieldChart d;
     powerChartOverlay := powerChartOverlay d;
     yearlyChartOverlay := yearlyChartOverlay d;
     errorContainer := errorContainer d |}.

Definition set_yearlyYieldChart (v : option YearlyChart) (d : Dashboard) : Dashboard :=
  {| powerValue := powerValue d;
     yieldValue := yieldValue d;
     powerGaugeChart := powerGaugeChart d;
     powerTimeSeriesChart := powerTimeSeriesChart d;
     yearlyYieldChart := v;
     powerChartOverlay := powerChartOverlay d;
     yearlyChartOverlay := yearlyChartOverlay d;
     errorContainer := errorContainer d |}.

Definition set_powerChartOverlay (v : option Overlay) (d : Dashboard) : Dashboard :=
  {| powerValue := powerValue d;
     yieldValue := yieldValue d;
     powerGaugeChart := powerGaugeChart d;
     powerTimeSeriesChart := powerTimeSeriesChart d;
     yearlyYieldChart := yearlyYieldChart d;
     powerChartOverlay := v;
     yearlyChartOverlay := yearlyChartOverlay d;
     errorContainer := errorContainer d |}.

Definition set_yearlyChartOverlay (v : option Overlay) (d : Dashboard) : Dashboard :=
  {| powerValue := powerValue d;
     yieldValue := yieldValue d;
     powerGaugeChart := powerGaugeChart d;
     powerTimeSeriesChart := powerTimeSeriesChart d;
     yearlyYieldChart := yearlyYieldChart d;
     powerChartOverlay := powerChartOverlay d;
     yearlyChartOverlay := v;
     errorContainer := errorContainer d |}.

Definition set_errorContainer (v : string) (d : Dashboard) : Dashboard :=
  {| powerValue := powerValue d;
     yieldValue := yieldValue d;
     powerGaugeChart := powerGaugeChart d;
     powerTimeSeriesChart := powerTimeSeriesChart d;
     yearlyYieldChart := yearlyYieldChart d;
     powerChartOverlay := powerChartOverlay d;
     yearlyChartOverlay := yearlyChartOverlay d;
     errorContainer := v |}.

(** The placeholder markup (the source quotes the class name with
    double quotes). *)
Definition noDataHTML : string := "<div class='no-data'>No data available</div>".

(** The "no data" signal: the overlay shows the placeholder. *)
Definition showNoData (o : option Overlay) : option Overlay :=
  match o with
  | Some _ => Some {| innerHTML := noDataHTML; active := true |}
  | None => None
  end.

(** [overlay?.classList.add('active')] and [classList.remove('active')]. *)
Definition setActive (b : bool) (o : option Overlay) : option Overlay :=
  match o with
  | Some ov => Some {| innerHTML := innerHTML ov; active := b |}
  | None => None
  end.

(** The page after [initializeGauges], [initializeTimeSeries] and
    [initializeYearlyYieldChart]. *)
Definition initialDashboard : Dashboard :=
  {| powerValue := 0;
     yieldValue := 0;
     powerGaugeChart :=
       Some {| normalPct := 60; warningPct := 20; criticalPct := 20; remainingPct := 0 |};
     powerTimeSeriesChart := Some {| tsLabels := []; tsData := [] |};
     yearlyYieldChart := Some {| yLabels := []; yData := []; yMeanLine := None |};
     powerChartOverlay := Some {| innerHTML := ""; active := false |};
     yearlyChartOverlay := Some {| innerHTML := ""; active := false |};
     errorContainer := "" |}.

(** ** [updateMetrics]: the gauge banding *)

Record CurrentData : Type := mkCurrentData {
  power : option Q;
  total_yield : option Q
}.

(** [Math.min((power / maxPower) * 100, 100)]. *)
Definition powerPercentage (maxPower power : Q) : Q :=
  Qmin ((power / maxPower) * 100) 100.

Definition gaugeBands (maxPower power : Q) : GaugeBands :=
  let pct := powerPercentage maxPower power in
  let '(normal, warning, critical) :=
    if Qle_bool pct 60 then (pct, 0%Q, 0%Q)
    else if Qle_bool pct 80 then (60%Q, (pct - 60)%Q, 0%Q)
    else (60%Q, 20%Q, (pct - 80)%Q) in
  {| normalPct := normal;
     warningPct := warning;
     criticalPct := critical;
     remainingPct := 100 - pct |}.

(** The maximum the source configures. *)
Definition maxPower : Q := 4500.

Definition updateMetrics (data : CurrentData) (d : Dashboard) : Dashboard :=
  let power := round (or_zero (power data)) in
  let yield_ := round (or_zero (total_yield data)) in
  let d := set_powerValue power d in
  let d := set_yieldValue (round (inject_Z yield_ / 1000)) d in
  match powerGaugeChart d with
  | Some _ => set_powerGaugeChart (Some (gaugeBands maxPower (inject_Z power))) d
  | None => d
  end.

Definition bandsTotal (b : GaugeBands) : Q :=
  normalPct b + warningPct b + criticalPct b + remainingPct b.

(** ** [updateTimeSeries]: the daily power curve *)

Record RawSample : Type := mkRawSample {
  TimeStamp : Q;
  Power : option Q
}.

Section TimeSeries.

(** [new Date(ts * 1000).toLocaleTimeString('en-US', ...)], which depends
    on the time zone of the browser. *)
Variable toLocaleTimeString : Q -> string.

(** The comparator [(a, b) => a.TimeStamp - b.TimeStamp] is negative. *)
Definition byTimeStamp (a b : RawSample) : bool := ltb (TimeStamp a) (TimeStamp b).

Definition sortedData (data : list RawSample) : list RawSample :=
  sort byTimeStamp data.

Definition sampleLabel (item : RawSample) : string :=
  toLocaleTimeString (TimeStamp item * 1000)%Q.

(** [Math.round(item.Power || 0)]. *)
Definition samplePower (item : RawSample) : Z := round (or_zero (Power item)).

(** [data] is [None] when the payload is not an array. *)
Definition updateTimeSeries (data : option (list RawSample)) (d : Dashboard) : Dashboard :=
  match data with
  | None | Some [] => set_powerChartOverlay (showNoData (powerChartOverlay d)) d
  | Some data =>
      let sortedData := sortedData data in
      let labels := map sampleLabel sortedData in
      let powers := map samplePower sortedData in
      match powerTimeSeriesChart d with
      | Some _ =>
          let d := set_powerTimeSeriesChart (Some {| tsLabels := labels; tsData := powers |}) d in
          set_powerChartOverlay (setActive false (powerChartOverlay d)) d
      | None => d
      end
  end.

End TimeSeries.

(** ** [updateYearlyYield]: the record normaliser and the yearly reducer *)

Record YearEntry : Type := mkYearEntry {
  year : JsVal;
  kwh : option Z
}.

Section YearlyYield.

Variable StringToNumber : string -> option Q.

(** [new Date().getFullYear()]. *)
Variable currentYear : Z.

(** [item.year ?? item.Year ?? item.year_value ?? item.yearVal]. *)
Definition resolveYear (item : gmap string JsVal) : JsVal :=
  coalesce (coalesce (coalesce (get item "year") (get item "Year"))
                     (get item "year_value"))
           (get item "yearVal").

(** [item.yield ?? item.Yield ?? item.total ?? item.Total ??
    item.total_yield ?? 0]. *)
Definition resolveYield (item : gmap string JsVal) : JsVal :=
  coalesce (coalesce (coalesce (coalesce (coalesce (get item "yield") (get item "Yield"))
                                         (get item "total"))
                               (get item "Total"))
                     (get item "total_yield"))
           (JNum 0).

(** [Math.round((yieldWh || 0) / 1000)]. *)
Definition toKwh (yieldWh : JsVal) : option Z :=
  match Number StringToNumber (or_else yieldWh (JNum 0)) with
  | Some wh => Some (round (wh / 1000))
  | None => None
  end.

(** The callback of [data.map]: one record to one entry. *)
Definition normalizeRecord (item : gmap string JsVal) : YearEntry :=
  let year := resolveYear item in
  let yieldWh := resolveYield item in
  {| year := coalesce year (JStr "-"); kwh := toKwh yieldWh |}.

(** [entry.year !== '-']. *)
Definition hasYear (entry : YearEntry) : bool :=
  negb (strict_eq (year entry) (JStr "-")).

Definition normalized (data : list (gmap string JsVal)) : list YearEntry :=
  List.filter hasYear (map normalizeRecord data).

(** The comparator [(a, b) => Number(a.year) - Number(b.year)] is
    negative. *)
Definition byYear (a b : YearEntry) : bool :=
  match Number StringToNumber (year a), Number StringToNumber (year b) with
  | Some x, Some y => ltb x y
  | _, _ => false
  end.

Definition sorted (data : list (gmap string JsVal)) : list YearEntry :=
  sort byYear (normalized data).

(** The callback of [sorted.map]: the year-over-year difference, clamped
    to [>= 0]; the first year as it is. *)
Definition yearDifference (sorted : list YearEntry) (entry : YearEntry) (idx : nat)
  : Outcome (option Z) :=
  if Nat.eqb idx 0 then Return (kwh entry)
  else
    let! previous := at_index sorted (idx - 1) in
    Return (max0 (sub (kwh entry) (kwh previous))).

Definition differences (sorted : list YearEntry) : Outcome (list (option Z)) :=
  mapi (yearDifference sorted) sorted.

(** [yearValue !== currentYear]: [NaN] differs from every year. *)
Definition notCurrentYear (y : JsVal) : bool :=
  match Number StringToNumber y with
  | Some yearValue => negb (Qeq_bool yearValue (inject_Z currentYear))
  | None => true
  end.

(** The callback of [differences.filter]: it reads [sorted[idx].year],
    then tests [idx > 0 && yearValue !== currentYear]. *)
Definition isFullYear (sorted : list YearEntry) (idx : nat) : Outcome bool :=
  let! entry := at_index sorted idx in
  Return (Nat.ltb 0 idx && notCurrentYear (year entry)).

(** The differences of the full years: neither the first entry nor the
    current year. *)
Definition fullYearDifferences (sorted : list YearEntry) (differences : list (option Z))
  : Outcome (list (option Z)) :=
  filteri (fun _ idx => isFullYear sorted idx) differences.

Definition meanValue (fullYearDifferences differences : list (option Z)) : option Q :=
  if Nat.ltb 0 (length fullYearDifferences)
  then div_length (reduce_add fullYearDifferences) (length fullYearDifferences)
  else if Nat.ltb 0 (length differences)
       then div_length (reduce_add differences) (length differences)
       else Some 0%Q.

(** [data] is [None] when the payload is not an array. *)
Definition updateYearlyYield (data : option (list (gmap string JsVal))) (d : Dashboard)
  : Outcome Dashboard :=
  match data, yearlyYieldChart d with
  | Some ((_ :: _) as data), Some _ =>
      let sorted := sorted data in
      let! differences := differences sorted in
      let labels := map year sorted in
      let! fullYearDifferences := fullYearDifferences sorted differences in
      let meanValue := meanValue fullYearDifferences differences in
      let chart :=
        {| yLabels := labels;
           yData := differences;
           yMeanLine := Some (repeat meanValue (length differences)) |} in
      let d := set_yearlyYieldChart (Some chart) d in
      Return (set_yearlyChartOverlay (setActive false (yearlyChartOverlay d)) d)
  | _, _ =>
      Return (set_yearlyChartOverlay (showNoData (yearlyChartOverlay d)) d)
  end.

(** An entry as the object [{ year, kwh }] the callback returns. *)
Definition entryObject (entry : YearEntry) : gmap string JsVal :=
  {[ "year" := year entry; "kwh" := of_int (kwh entry) ]}.

End YearlyYield.

(** ** [fetchData]: the refresh cycle *)

(** A parsed body, read the way the cycle reads it: the truthiness of
    its [success] property and its [data]. *)
Record Envelope (A : Type) : Type := mkEnvelope {
  success : bool;
  data : A
}.

Arguments mkEnvelope {A} success data.
Arguments success {A} e.
Arguments data {A} e.

(** What [await fetchWithAuth(url)] and then [await response.json()]
    give: the fetch rejects, or it resolves to a response whose body
    parses to an envelope or makes [json()] reject. *)
Inductive FetchResult (A : Type) : Type :=
| NetworkError (msg : string)
| Response (ok : bool) (status : Z) (body : Outcome (Envelope A)).

Arguments NetworkError {A} msg.
Arguments Response {A} ok status body.

(** The three upstream resources, by URL. *)
Record Upstream : Type := mkUpstream {
  apiCurrent : FetchResult CurrentData;
  apiToday : FetchResult (option (list RawSample));
  apiYearlyYield : FetchResult (option (list (gmap string JsVal)))
}.

(** A computation on the page that may throw. *)
Definition Cycle (A : Type) : Type := Dashboard -> Dashboard * Outcome A.

Definition retC {A : Type} (a : A) : Cycle A := fun d => (d, Return a).

Definition bindC {A B : Type} (m : Cycle A) (k : A -> Cycle B) : Cycle B :=
  fun d =>
    match m d with
    | (d', Return a) => k a d'
    | (d', Throw msg) => (d', Throw msg)
    end.

Notation "'do!' x ':=' m 'in' k" := (bindC m (fun x => k))
  (at level 10, x name, m at level 100, k at level 200).

Definition liftO {A : Type} (o : Outcome A) : Cycle A := fun d => (d, o).

Definition modify (f : Dashboard -> Dashboard) : Cycle unit := fun d => (f d, Return tt).

(** An update that throws leaves the page as it was. *)
Definition attempt (f : Dashboard -> Outcome Dashboard) : Cycle unit :=
  fun d =>
    match f d with
    | Return d' => (d', Return tt)
    | Throw msg => (d, Throw msg)
    end.

Definition when (b : bool) (m : Cycle unit) : Cycle unit := if b then m else retC tt.

Definition unauthorized : string := "Unauthorized: Invalid API credentials".

(** One resource: the fetch, the test for status 401, the parse. *)
Definition fetchJson {A : Type} (r : FetchResult A) : Outcome (Envelope A) :=
  match r with
  | NetworkError msg => Throw msg
  | Response ok status body =>
      if negb ok && (status =? 401) then Throw unauthorized else body
  end.

Section FetchData.

Variable toLocaleTimeString : Q -> string.
Variable StringToNumber : string -> option Q.
Variable currentYear : Z.

(** The statements before the first fetch. *)
Definition beginCycle (d : Dashboard) : Dashboard :=
  let d := set_powerChartOverlay (setActive true (powerChartOverlay d)) d in
  let d := set_yearlyChartOverlay (setActive true (yearlyChartOverlay d)) d in
  set_errorContainer "" d.

(** The body of the [try] block. *)
Definition tryBlock (up : Upstream) : Cycle unit :=
  do! _ := modify beginCycle in
  do! currentData := liftO (fetchJson (apiCurrent up)) in
  do! _ := when (success currentData) (modify (updateMetrics (data currentData))) in
  do! todayData := liftO (fetchJson (apiToday up)) in
  do! _ := when (success todayData)
             (modify (updateTimeSeries toLocaleTimeString (data todayData))) in
  do! yearlyData := liftO (fetchJson (apiYearlyYield up)) in
  when (success yearlyData)
    (attempt (updateYearlyYield StringToNumber currentYear (data yearlyData))).

(** The [catch] block (the source quotes the class name with double
    quotes). *)
Definition showError (msg : string) (d : Dashboard) : Dashboard :=
  set_errorContainer
    (String.append "<div class='error'>Failed to fetch data: " (String.append msg "</div>")) d.

Definition fetchData (up : Upstream) (d : Dashboard) : Dashboard :=
  match tryBlock up d with
  | (d', Return _) => d'
  | (d', Throw msg) => showError msg d'
  end.

End FetchData.

(** ** Parameters for the examples *)

(** Strings of decimal digits as numbers (the empty string is [0]), every
    other string as [NaN]: the conversion of JavaScript on these strings,
    and not more of it. *)
Fixpoint digitsToNumber (acc : Z) (s : string) : option Q :=
  match s with
  | EmptyString => Some (inject_Z acc)
  | String c s' =>
      let n := Z.of_nat (Ascii.nat_of_ascii c) in
      if (48 <=? n) && (n <=? 57) then digitsToNumber (10 * acc + (n - 48)) s' else None
  end.

Definition exampleStringToNumber (s : string) : option Q := digitsToNumber 0 s.

(** Minutes since midnight UTC stand for the label of a time of day. *)
Definition exampleTimeLabel (ms : Q) : string :=
  pretty ((Qfloor (ms / 60000)) mod 1440).

(** ** Orders, classes and inputs the statements name *)

(** The samples of one timestamp. *)
Definition atTimeStamp (t : Q) (item : RawSample) : bool := Qeq_bool (TimeStamp item) t.

Definition timeOrdered (a b : RawSample) : Prop := (TimeStamp a <= TimeStamp b)%Q.

(** The years of the specification: deltas 100, 300, 500 and the current
    year 2022; only 2021 is a full year. *)
Definition threeYears : list YearEntry :=
  [ {| year := JNum 2020; kwh := Some 100 |};
    {| year := JNum 2021; kwh := Some 400 |};
    {| year := JNum 2022; kwh := Some 900 |} ].

(** The canonical record of the specification. *)
Definition canonicalRecord : gmap string JsVal :=
  {[ "year" := JNum 2024; "yield" := JNum 5000 ]}.

Definition twoSamples : list RawSample :=
  [ {| TimeStamp := 100; Power := Some 200%Q |};
    {| TimeStamp := 50; Power := Some 300%Q |} ].

Definition twoRecords : list (gmap string JsVal) :=
  [ {[ "year" := JNum 2023; "yield" := JNum 1500000 ]};
    {[ "year" := JNum 2022; "yield" := JNum 1000000 ]} ].

(** The fetch of [/api/current] rejects; the other two resources answer
    with success. *)
Definition upstreamCurrentDown : Upstream :=
  {| apiCurrent := NetworkError "Failed to fetch";
     apiToday := Response true 200 (Return (mkEnvelope true (Some twoSamples)));
     apiYearlyYield := Response true 200 (Return (mkEnvelope true (Some twoRecords))) |}.

(** [/api/current] answers with status 500 and a body that parses but
    has no [success]; the other two resources answer with success. *)
Definition upstreamCurrentRefused : Upstream :=
  {| apiCurrent :=
       Response false 500
         (Return (mkEnvelope false {| power := None; total_yield := None |}));
     apiToday := Response true 200 (Return (mkEnvelope true (Some twoSamples)));
     apiYearlyYield := Response true 200 (Return (mkEnvelope true (Some twoRecords))) |}.

(** ** The mean of the full years, as the specification words it *)

(** The sum of a series, [NaN] if an element is. *)
Definition seriesSum (l : list (option Z)) : option Z :=
  fold_right add (Some 0) l.

(** The arithmetic mean: the sum over the count. *)
Definition arithmeticMean (l : list (option Z)) : option Q :=
  div_length (seriesSum l) (length l).

Section MeanOfFullYears.

Variable StringToNumber : string -> option Q.
Variable currentYear : Z.

(** The deltas of the full years: pair every entry with its delta, leave
    the first pair out, keep the pairs whose year is not the current
    calendar year. *)
Definition fullYearDeltas (sorted : list YearEntry) (deltaKwh : list (option Z))
  : list (option Z) :=
  map snd
    (List.filter (fun p => notCurrentYear StringToNumber currentYear (year (fst p)))
       (tail (combine sorted deltaKwh))).

(** The mean over the full years, over all deltas if no year is full. *)
Definition meanKwh (sorted : list YearEntry) (deltaKwh : list (option Z)) : option Q :=
  match fullYearDeltas sorted deltaKwh with
  | [] => arithmeticMean deltaKwh
  | full => arithmeticMean full
  end.

End MeanOfFullYears.

(** * The access gate and the page gestures

    The rest of [public/app.js] (the stored token, the authenticated
    fetch, the check on page load, the pull-to-refresh gesture) and the
    gateway of [pwa/src/index.ts] (the token check, its middleware, the
    proxy routes, the scripts of the sign-in and main pages). *)

(** ** Strings *)

Module JsString.

(** [s] without the prefix [pat], if it starts with it. *)
Fixpoint strip_prefix (pat s : string) : option string :=
  match pat, s with
  | EmptyString, _ => Some s
  | String a pat', String b s' => if Ascii.eqb a b then strip_prefix pat' s' else None
  | String _ _, EmptyString => None
  end.

(** [s.replace(pat, '')] for a string [pat]: the first occurrence of
    [pat] is removed. *)
Fixpoint remove_first (pat s : string) : string :=
  match strip_prefix pat s with
  | Some rest => rest
  | None =>
      match s with
      | EmptyString => EmptyString
      | String c s' => String c (remove_first pat s')
      end
  end.

(** [s.includes(pat)]. *)
Fixpoint includes (pat s : string) : bool :=
  match strip_prefix pat s with
  | Some _ => true
  | None =>
      match s with
      | EmptyString => false
      | String _ s' => includes pat s'
      end
  end.

(** The truthiness of a string that may be [null] or [undefined]. *)
Definition truthy (s : option string) : bool :=
  match s with
  | Some s => negb (String.eqb s "")
  | None => false
  end.

(** [a || b] on such strings. *)
Definition or_else (a b : option string) : option string := if truthy a then a else b.

End JsString.

(** ** The client: stored token and authenticated fetch *)

Module Client.

(** The two storages, [window.API_SECRET] ([None] when undefined) and the
    address the window shows. *)
Record Browser : Type := mkBrowser {
  sessionStorage : gmap string string;
  localStorage : gmap string string;
  API_SECRET : option string;
  location : string
}.

Definition set_sessionStorage (v : gmap string string) (b : Browser) : Browser :=
  {| sessionStorage := v;
     localStorage := localStorage b;
     API_SECRET := API_SECRET b;
     location := location b |}.

Definition set_localStorage (v : gmap string string) (b : Browser) : Browser :=
  {| sessionStorage := sessionStorage b;
     localStorage := v;
     API_SECRET := API_SECRET b;
     location := location b |}.

Definition set_location (v : string) (b : Browser) : Browser :=
  {| sessionStorage := sessionStorage b;
     localStorage := localStorage b;
     API_SECRET := API_SECRET b;
     location := v |}.

(** [sessionStorage.getItem('pwaToken') || localStorage.getItem('pwaToken')]. *)
Definition getPwaToken (b : Browser) : option string :=
  JsString.or_else (sessionStorage b !! "pwaToken") (localStorage b !! "pwaToken").

Definition getApiSecret (b : Browser) : option string :=
  match API_SECRET b with
  | Some secret => Some secret
  | None => localStorage b !! "apiSecret"
  end.

Definition bearer (token : string) : string := String.append "Bearer " token.

(** The headers [fetchWithAuth] sends. *)
Definition fetchWithAuth_headers (b : Browser) : gmap string string :=
  let pwaToken := getPwaToken b in
  let apiSecret := getApiSecret b in
  let headers : gmap string string := ∅ in
  let headers :=
    match pwaToken with
    | Some token => if JsString.truthy pwaToken then <["Authorization" := bearer token]> headers
                    else headers
    | None => headers
    end in
  match apiSecret with
  | Some secret => if JsString.truthy apiSecret then <["X-API-Key" := bearer secret]> headers
                   else headers
  | None => headers
  end.

(** What a fetch of the page's own scripts comes to: it rejects, or it
    resolves to a response that is [ok] or not. *)
Inductive Answer : Type :=
| Rejected
| Answered (ok : bool).

(** [checkPwaAuth]; [authCheck] is the answer of [/auth-check] to the
    header it is given. *)
Definition checkPwaAuth (authCheck : string -> Answer) (b : Browser) : Browser :=
  match getPwaToken b with
  | Some token =>
      if JsString.truthy (Some token) then
        match authCheck (bearer token) with
        | Answered false =>
            set_location "/auth.html"
              (set_sessionStorage (delete "pwaToken" (sessionStorage b)) b)
        | Answered true => b
        | Rejected => b
        end
      else set_location "/auth.html" b
  | None => set_location "/auth.html" b
  end.

(** The submit handler of the sign-in page, for the trimmed [token] and
    the answer of the fetch of [window.location.pathname]. *)
Definition submitToken (token : string) (answer : Answer) (b : Browser) : Browser :=
  match answer with
  | Answered true =>
      let b := set_sessionStorage (<["pwaToken" := token]> (sessionStorage b)) b in
      let b := set_localStorage (<["pwaToken" := token]> (localStorage b)) b in
      set_location "/" b
  | Answered false => b
  | Rejected => b
  end.

(** The click handler of the logout button of the main page. *)
Definition logout (b : Browser) : Browser :=
  let b := set_sessionStorage (delete "pwaToken" (sessionStorage b)) b in
  let b := set_localStorage (delete "pwaToken" (localStorage b)) b in
  set_location "/auth.html" b.

End Client.

(** ** The gateway *)

Module Gateway.

Record Request : Type := mkRequest {
  path : string;
  authorization : option string;
  accept : option string
}.

Inductive Page : Type :=
| AuthPage
| MainPage.

(** What a handler does: it calls [next()], or answers with [c.json] or
    [c.html]. *)
Inductive Reply : Type :=
| Next
| JsonReply (body : gmap string JsVal) (status : Z)
| HtmlReply (page : Page) (status : Z).

(** [secret] is [c.env.SMA_READER_ACCESS]. *)
Definition verifyPwaToken (secret : option string) (authHeader : option string) : bool :=
  if negb (JsString.truthy secret) then true
  else
    let providedToken := option_map (JsString.remove_first "Bearer ") authHeader in
    match providedToken, secret with
    | Some provided, Some secret => String.eqb provided secret
    | _, _ => false
    end.

Definition publicPaths : list string := ["/auth.html"; "/auth-check"].

(** The handler given to [app.use('/', ...)]. *)
Definition middleware (secret : option string) (req : Request) : Reply :=
  if existsb (fun p => String.eqb (path req) p) publicPaths then Next
  else if negb (verifyPwaToken secret (authorization req)) then
    let accept := match JsString.or_else (accept req) (Some "") with
                  | Some a => a
                  | None => ""
                  end in
    if JsString.includes "application/json" accept then
      JsonReply {[ "error" := JStr "Unauthorized";
                   "message" := JStr "Invalid or missing PWA access token" ]} 401
    else HtmlReply AuthPage 401
  else Next.

(** The handler of [/auth-check]. *)
Definition authCheck (secret : option string) (req : Request) : Reply :=
  if verifyPwaToken secret (authorization req)
  then JsonReply {[ "authenticated" := JBool true ]} 200
  else JsonReply {[ "authenticated" := JBool false ]} 401.

(** The handler of [/auth.html]. *)
Definition authPage : Reply := HtmlReply AuthPage 200.

(** [response.ok]. *)
Definition ok (status : Z) : bool := (200 <=? status) && (status <=? 299).

(** The answer a script sees when the request passes [middleware] and
    then reaches [handler]. *)
Definition answerOf (reply : Reply) : option Client.Answer :=
  match reply with
  | Next => None
  | JsonReply _ status | HtmlReply _ status => Some (Client.Answered (ok status))
  end.

(** [handler] behind [middleware]: the routing at the path [/], the
    one path [app.use('/', ...)] mounts the middleware on (at the two
    public paths the middleware passes every request on, so the
    composition answers as the handler alone). *)
Definition guarded (secret : option string) (req : Request) (handler : Reply) : Reply :=
  match middleware secret req with
  | Next => handler
  | reply => reply
  end.


(** The upstream API as a proxy route sees it: the fetch rejects, or it
    resolves to a status and a body that parses ([Some]) or makes
    [response.json()] reject. *)
Inductive UpstreamAnswer (J : Type) : Type :=
| UpstreamDown
| UpstreamAnswered (status : Z) (body : option J).

Arguments UpstreamDown {J}.
Arguments UpstreamAnswered {J} status body.

(** The body of a proxy route's answer: the upstream's, or the route's
    own [{ error }]. *)
Inductive ProxyBody (J : Type) : Type :=
| Forwarded (body : J)
| Failed (error : string).

Arguments Forwarded {J} body.
Arguments Failed {J} error.

(** A proxy route ([/api/current], [/api/current-and-max],
    [/api/today]), [error] being its message. *)
Definition proxy {J : Type} (error : string) (upstream : UpstreamAnswer J) : ProxyBody J * Z :=
  match upstream with
  | UpstreamAnswered status (Some body) => (Forwarded body, status)
  | UpstreamAnswered _ None => (Failed error, 500)
  | UpstreamDown => (Failed error, 500)
  end.

(** The answer of a proxy route as [fetchData] reads it: [readBody] is
    the reading of [success] and [data] off a forwarded body; the body
    [{ error }] has neither, [missing] stands for its [data]. *)
Definition asFetchResult {J A : Type} (readBody : J -> Outcome (Envelope A)) (missing : A)
  (answer : ProxyBody J * Z) : FetchResult A :=
  let '(body, status) := answer in
  Response (ok status) status
    (match body with
     | Forwarded j => readBody j
     | Failed _ => Return (mkEnvelope false missing)
     end).

End Gateway.

(** ** The pull-to-refresh gesture *)

Module PullToRefresh.

Definition threshold : Q := 70.

Definition releaseText : string := "Release to refresh".
Definition pullText : string := "Pull to refresh".
Definition refreshingText : string := "Refreshing...".

(** The indicator ([translateY] in pixels, its text, the class
    [visible]), the variables of the closure, the handlers suspended in
    [await fetchData()], the timers set and not yet fired, and the
    number of calls of [fetchData] so far. *)
Record Gesture : Type := mkGesture {
  translateY : Q;
  textContent : string;
  visible : bool;
  startY : Q;
  pulling : bool;
  refreshing : nat;
  timers : nat;
  refreshes : nat
}.

(** [touches] holds the [clientY] of every touch of the event. *)
Inductive Event : Type :=
| TouchStart (scrollY : Q) (touches : list Q)
| TouchMove (scrollY : Q) (touches : list Q)
| TouchEnd
| RefreshDone
| TimerFires.

Definition touchstart (scrollY : Q) (touches : list Q) (g : Gesture) : Gesture :=
  match touches with
  | [clientY] =>
      if Qeq_bool scrollY 0 then
        {| translateY := translateY g; textContent := textContent g; visible := visible g;
           startY := clientY; pulling := true;
           refreshing := refreshing g; timers := timers g; refreshes := refreshes g |}
      else g
  | _ => g
  end.

Definition touchmove (scrollY : Q) (touches : list Q) (g : Gesture) : Gesture :=
  if negb (pulling g) then g
  else
    match touches with
    | [clientY] =>
        let delta := (clientY - startY g)%Q in
        if Js.ltb 0 delta && Qeq_bool scrollY 0 then
          let clamped := Qmin delta (threshold * (15 # 10)) in
          {| translateY := Qmax (clamped / 3 - 12) 0;
             textContent := if Js.ltb threshold delta then releaseText else pullText;
             visible := true;
             startY := startY g; pulling := pulling g;
             refreshing := refreshing g; timers := timers g; refreshes := refreshes g |}
        else g
    | _ => g
    end.

(** [touchend] up to [await fetchData()], or to its end when there is no
    refresh. *)
Definition touchend (g : Gesture) : Gesture :=
  if negb (pulling g) then g
  else
    let shouldRefresh := String.eqb (textContent g) releaseText in
    if shouldRefresh then
      {| translateY := 0; textContent := refreshingText; visible := true;
         startY := startY g; pulling := pulling g;
         refreshing := S (refreshing g); timers := timers g; refreshes := S (refreshes g) |}
    else
      {| translateY := 0; textContent := pullText; visible := true;
         startY := startY g; pulling := false;
         refreshing := refreshing g; timers := S (timers g); refreshes := refreshes g |}.

(** The rest of [touchend] once [fetchData] has settled. *)
Definition refreshDone (g : Gesture) : Gesture :=
  match refreshing g with
  | O => g
  | S n =>
      {| translateY := translateY g; textContent := textContent g; visible := visible g;
         startY := startY g; pulling := false;
         refreshing := n; timers := S (timers g); refreshes := refreshes g |}
  end.

(** The callback of [setTimeout]. *)
Definition timerFires (g : Gesture) : Gesture :=
  match timers g with
  | O => g
  | S n =>
      {| translateY := -(12); textContent := pullText; visible := false;
         startY := startY g; pulling := pulling g;
         refreshing := refreshing g; timers := n; refreshes := refreshes g |}
  end.

Definition step (g : Gesture) (e : Event) : Gesture :=
  match e with
  | TouchStart scrollY touches => touchstart scrollY touches g
  | TouchMove scrollY touches => touchmove scrollY touches g
  | TouchEnd => touchend g
  | RefreshDone => refreshDone g
  | TimerFires => timerFires g
  end.

Definition run (g : Gesture) (events : list Event) : Gesture := fold_left step events g.

(** The event is a move that shows [releaseText]. *)
Definition arms (g : Gesture) (e : Event) : bool :=
  match e with
  | TouchMove scrollY [clientY] =>
      pulling g && Qeq_bool scrollY 0 && Js.ltb threshold (clientY - startY g)
  | _ => false
  end.

(** Some event of the sequence arms the gesture. *)
Fixpoint everArmed (g : Gesture) (events : list Event) : bool :=
  match events with
  | [] => false
  | e :: events => arms g e || everArmed (step g e) events
  end.

(** The indicator lies where the handlers put it. *)
Definition offsetOk (g : Gesture) : Prop :=
  (0 <= translateY g <= 23)%Q \/ (translateY g == -(12))%Q.

(** The gesture at rest: the indicator as the callback of the timer
    leaves it, no touch down, nothing pending. *)
Definition idle : Gesture :=
  {| translateY := -(12); textContent := pullText; visible := false;
     startY := 0; pulling := false; refreshing := 0; timers := 0; refreshes := 0 |}.

End PullToRefresh.

(** * The program's own arithmetic and payloads of any shape *)

(** ** The gauge in double arithmetic

    The banding of [updateMetrics] once more, on IEEE doubles as the
    program computes it. *)

Module Double.

Import PrimFloat.

Definition is_nan (x : PrimFloat.float) : bool := negb (PrimFloat.eqb x x).

(** [Math.min(a, b)] (the order of the two zeros apart). *)
Definition min (a b : PrimFloat.float) : PrimFloat.float :=
  if is_nan a || is_nan b then PrimFloat.nan
  else if PrimFloat.ltb a b then a else b.

Record Bands : Type := mkBands {
  normal : PrimFloat.float;
  warning : PrimFloat.float;
  critical : PrimFloat.float;
  remaining : PrimFloat.float
}.

(** [Math.min((power / maxPower) * 100, 100)]. *)
Definition powerPercentage (maxPower power : PrimFloat.float) : PrimFloat.float :=
  min (PrimFloat.mul (PrimFloat.div power maxPower) 100%float) 100%float.

Definition gaugeBands (maxPower power : PrimFloat.float) : Bands :=
  let pct := powerPercentage maxPower power in
  let '(n, w, c) :=
    if PrimFloat.leb pct 60%float then (pct, 0%float, 0%float)
    else if PrimFloat.leb pct 80%float then (60%float, PrimFloat.sub pct 60%float, 0%float)
    else (60%float, 20%float, PrimFloat.sub pct 80%float) in
  {| normal := n; warning := w; critical := c;
     remaining := PrimFloat.sub 100%float pct |}.

(** [normal + warning + critical + remaining], added from the left. *)
Definition total (b : Bands) : PrimFloat.float :=
  PrimFloat.add (PrimFloat.add (PrimFloat.add (normal b) (warning b)) (critical b))
    (remaining b).

(** The double of a natural number (exact below [2^53]). *)
Fixpoint of_nat (n : nat) : PrimFloat.float :=
  match n with
  | O => 0%float
  | S k => PrimFloat.add (of_nat k) 1%float
  end.


(** The maximum the source configures. *)
Definition maxPower : PrimFloat.float := 4500%float.




End Double.

(** ** The full years, on years and deltas that are integers *)

(** The deltas of the full years: every year but the first with its
    delta, the current calendar year left out. *)
Definition fullYearsOf (currentYear : Z) (years deltas : list Z) : list Z :=
  map snd
    (List.filter (fun p => negb (Z.eqb (fst p) currentYear))
       (tail (combine years deltas))).

(** ** The refresh cycle on payloads of any shape

    A parsed body may carry [success] and no [data], and an array may
    hold [null]: the transforms then read a property of [undefined] or
    [null] and throw, inside the [try] block of [fetchData].  (A body
    that parses to [null] makes the read of [success] throw at the place
    where a body that does not parse makes [json()] reject: it is a
    [Throw] body of its [FetchResult].) *)

(** The message of the engine's [TypeError]. *)
Definition typeError : string := "Cannot read properties of null".

(** The elements of a parsed array, [None] standing for a [null] (or
    [undefined]) element. *)
Fixpoint elements {A : Type} (l : list (option A)) : Outcome (list A) :=
  match l with
  | [] => Return []
  | Some x :: l' =>
      let! xs := elements l' in
      Return (x :: xs)
  | None :: _ => Throw typeError
  end.

(** [updateMetrics(data)], [data] being [None] when the body has none:
    [data.power] throws before anything is written. *)
Definition updateMetricsRaw (data : option CurrentData) (d : Dashboard) : Outcome Dashboard :=
  match data with
  | Some data => Return (updateMetrics data d)
  | None => Throw typeError
  end.

(** [updateTimeSeries(data)]: a [null] element makes the comparator or
    the callback of [map] throw, before the chart is written. *)
Definition updateTimeSeriesRaw (toLocaleTimeString : Q -> string)
  (data : option (list (option RawSample))) (d : Dashboard) : Outcome Dashboard :=
  match data with
  | None => Return (updateTimeSeries toLocaleTimeString None d)
  | Some items =>
      let! data := elements items in
      Return (updateTimeSeries toLocaleTimeString (Some data) d)
  end.

(** [updateYearlyYield(data)]: past the guard, a [null] element makes
    the callback of [data.map] throw. *)
Definition updateYearlyYieldRaw (StringToNumber : string -> option Q) (currentYear : Z)
  (data : option (list (option (gmap string JsVal)))) (d : Dashboard) : Outcome Dashboard :=
  match data, yearlyYieldChart d with
  | Some ((_ :: _) as items), Some _ =>
      let! data := elements items in
      updateYearlyYield StringToNumber currentYear (Some data) d
  | _, _ => updateYearlyYield StringToNumber currentYear None d
  end.

(** The three upstream resources, their [data] of any shape: [None]
    when the body has none. *)
Record RawUpstream : Type := mkRawUpstream {
  rawCurrent : FetchResult (option CurrentData);
  rawToday : FetchResult (option (list (option RawSample)));
  rawYearlyYield : FetchResult (option (list (option (gmap string JsVal))))
}.

(** What the cycle does with one parsed body. *)
Definition handed {A : Type} (update : A -> Dashboard -> Outcome Dashboard)
  (body : Envelope A) (d : Dashboard) : Outcome Dashboard :=
  if success body then update (data body) d else Return d.

Section FetchDataRaw.

Variable toLocaleTimeString : Q -> string.
Variable StringToNumber : string -> option Q.
Variable currentYear : Z.

(** The body of the [try] block. *)
Definition tryBlockRaw (up : RawUpstream) : Cycle unit :=
  do! _ := modify beginCycle in
  do! currentData := liftO (fetchJson (rawCurrent up)) in
  do! _ := attempt (handed updateMetricsRaw currentData) in
  do! todayData := liftO (fetchJson (rawToday up)) in
  do! _ := attempt (handed (updateTimeSeriesRaw toLocaleTimeString) todayData) in
  do! yearlyData := liftO (fetchJson (rawYearlyYield up)) in
  attempt (handed (updateYearlyYieldRaw StringToNumber currentYear) yearlyData).

(** [fetchData], on payloads of any shape. *)
Definition fetchDataRaw (up : RawUpstream) (d : Dashboard) : Dashboard :=
  match tryBlockRaw up d with
  | (d', Return _) => d'
  | (d', Throw msg) => showError msg d'
  end.

End FetchDataRaw.

(** A payload of the documented shape, as a payload of any shape. *)
Definition wellShaped {A B : Type} (f : A -> B) (r : FetchResult A) : FetchResult B :=
  match r with
  | NetworkError msg => NetworkError msg
  | Response ok status (Return body) =>
      Response ok status (Return (mkEnvelope (success body) (f (data body))))
  | Response ok status (Throw msg) => Response ok status (Throw msg)
  end.

Definition rawOf (up : Upstream) : RawUpstream :=
  {| rawCurrent := wellShaped Some (apiCurrent up);
     rawToday := wellShaped (option_map (map Some)) (apiToday up);
     rawYearlyYield := wellShaped (option_map (map Some)) (apiYearlyYield up) |}.

(** No element of the array is [null]. *)
Definition noNull {A : Type} (l : list (option A)) : Prop := Forall (fun x => x <> None) l.

(** ** Header values that [fetch] sends as they are *)

(** [fetch] removes the blanks at both ends of a header value and
    refuses a value that holds NUL, CR, LF or a character that is no
    byte.  A value of printable ASCII characters that does not end in a
    space reaches the gateway as the script wrote it. *)
Definition isPrintable (c : Ascii.ascii) : bool :=
  let n := Ascii.nat_of_ascii c in
  Nat.leb 32 n && Nat.leb n 126.

Fixpoint printable (s : string) : bool :=
  match s with
  | EmptyString => true
  | String c s' => isPrintable c && printable s'
  end.

Fixpoint lastChar (s : string) : option Ascii.ascii :=
  match s with
  | EmptyString => None
  | String c EmptyString => Some c
  | String _ s' => lastChar s'
  end.

(** The header ["Bearer " + token] is sent unchanged. *)
Definition sentVerbatim (token : string) : bool :=
  printable token &&
  match lastChar token with
  | Some c => negb (Nat.eqb (Ascii.nat_of_ascii c) 32)
  | None => false
  end.

(** ** Notions the further properties name *)


(** The year-over-year growth of a cumulative series after the value
    [previous], floored at 0. *)
Fixpoint growth (previous : Z) (cumulative : list Z) : list Z :=
  match cumulative with
  | [] => []
  | k :: rest => Z.max 0 (k - previous) :: growth k rest
  end.

Definition total (l : list Z) : Z := fold_right Z.add 0 l.

(** The years of two entries convert to numbers in ascending order. *)
Definition yearOrdered (StringToNumber : string -> option Q) (a b : YearEntry) : Prop :=
  exists x y,
    Number StringToNumber (year a) = Some x /\
    Number StringToNumber (year b) = Some y /\ (x <= y)%Q.

(** A request as the gateway reads it off the headers a script sends. *)
Definition requestOf (path : string) (headers : gmap string string) : Gateway.Request :=
  {| Gateway.path := path;
     Gateway.authorization := headers !! "Authorization";
     Gateway.accept := headers !! "Accept" |}.

(** * Properties *)

(** ** Exact arithmetic *)

Lemma round_nonneg (x : Q) : (0 <= Js.round x) <-> (-(1 # 2) <= x)%Q.
Proof.
  unfold Js.round. split; intros H.
  - pose proof (Qfloor_le (x + (1 # 2))) as Hle.
    assert (Hz : (0 <= inject_Z (Qfloor (x + (1 # 2))))%Q).
    { rewrite <- (Zle_Qle 0). exact H. }
    lra.
  - change 0 with (Qfloor 0). apply Qfloor_resp_le. lra.
Qed.

Lemma round_integer (z : Z) : Js.round (inject_Z z) = z.
Proof.
  unfold Js.round.
  assert (Hlo : (z <= Qfloor (inject_Z z + (1 # 2)))).
  { rewrite <- (Qfloor_Z z) at 1. apply Qfloor_resp_le. lra. }
  assert (Hhi : (Qfloor (inject_Z z + (1 # 2)) < z + 1)).
  { pose proof (Qfloor_le (inject_Z z + (1 # 2))) as Hle.
    rewrite Zlt_Qlt, inject_Z_plus. change (inject_Z 1) with 1%Q. lra. }
  lia.
Qed.

Lemma or_zero_eq (q : Q) : (Js.or_zero (Some q) == q)%Q.
Proof.
  unfold Js.or_zero. destruct (Qeq_bool q 0) eqn:E; [|reflexivity].
  apply Qeq_bool_eq in E. symmetry. exact E.
Qed.

Lemma ltb_lt (x y : Q) : Js.ltb x y = true <-> (x < y)%Q.
Proof.
  unfold Js.ltb. rewrite negb_true_iff. split; intros H.
  - apply Qnot_le_lt. intros Hle. apply Qle_bool_iff in Hle. congruence.
  - destruct (Qle_bool y x) eqn:E; [|reflexivity].
    apply Qle_bool_iff in E. lra.
Qed.

Lemma ltb_ge (x y : Q) : Js.ltb x y = false <-> (y <= x)%Q.
Proof.
  unfold Js.ltb. rewrite negb_false_iff. apply Qle_bool_iff.
Qed.

(** ** The gauge *)

Lemma powerPercentage_le_100 (m r : Q) : (powerPercentage m r <= 100)%Q.
Proof. unfold powerPercentage. apply Q.le_min_r. Qed.

Lemma powerPercentage_nonneg (m r : Q) :
  (0 < m)%Q -> (0 <= r)%Q -> (0 <= powerPercentage m r)%Q.
Proof.
  intros Hm Hr. unfold powerPercentage.
  apply Q.min_glb; [|lra].
  assert (H : (0 <= r / m)%Q) by (apply Qle_shift_div_l; lra).
  lra.
Qed.

Ltac gauge_cases :=
  unfold gaugeBands;
  match goal with
  | |- context [powerPercentage ?m ?r] =>
      pose proof (powerPercentage_le_100 m r);
      generalize dependent (powerPercentage m r)
  end;
  let pct := fresh "pct" in
  intros pct; intros;
  destruct (Qle_bool pct 60) eqn:?; [| destruct (Qle_bool pct 80) eqn:?];
  repeat match goal with
    | H : Qle_bool _ _ = true |- _ => apply Qle_bool_iff in H
    | H : Qle_bool ?a ?b = false |- _ =>
        assert (~ (a <= b)%Q) by (rewrite <- Qle_bool_iff; congruence); clear H
    end;
  cbn [normalPct warningPct criticalPct remainingPct bandsTotal].








(** [updateMetrics] hands the bands of the rounded reading to the gauge,
    at the configured maximum. *)
Lemma updateMetrics_gauge (data : CurrentData) (d : Dashboard) (chart : GaugeBands) :
  powerGaugeChart d = Some chart ->
  powerGaugeChart (updateMetrics data d)
  = Some (gaugeBands maxPower (inject_Z (Js.round (Js.or_zero (power data))))).
Proof.
  intros Hchart. unfold updateMetrics. cbn. rewrite Hchart. reflexivity.
Qed.

(** A reading below zero passes through [Math.min] and the first branch
    unchanged: the normal band is negative, the other three are not. *)
Lemma gaugeBands_negative (r m : Q) :
  (0 < m)%Q -> (r < 0)%Q ->
  (normalPct (gaugeBands m r) < 0)%Q /\
  (warningPct (gaugeBands m r) == 0)%Q /\
  (criticalPct (gaugeBands m r) == 0)%Q /\
  (100 < remainingPct (gaugeBands m r))%Q.
Proof.
  intros Hm Hr.
  assert (Hdiv : (r / m < 0)%Q) by (apply Qlt_shift_div_r; lra).
  assert (Hpct : (powerPercentage m r < 0)%Q).
  { unfold powerPercentage.
    apply Qle_lt_trans with (r / m * 100)%Q; [apply Q.le_min_l | lra]. }
  gauge_cases; repeat split; lra.
Qed.

(** C8, as stated, fails: the reading [-1] W, which [updateMetrics]
    passes on from [data.power = -1], has a negative normal band. *)
Lemma gaugeBands_negative_reading :
  powerGaugeChart (updateMetrics {| power := Some (-1)%Q; total_yield := None |} initialDashboard)
  = Some (gaugeBands maxPower (-1)) /\
  ~ (0 <= normalPct (gaugeBands maxPower (-1)))%Q.
Proof.
  split; [reflexivity|].
  vm_compute. intros H. apply H. reflexivity.
Qed.

(** C8, amended: for every reading [r >= 0] and maximum [m > 0] each of
    the four bands is at least 0. *)
Theorem gaugeBands_nonneg (r m : Q) :
  (0 < m)%Q -> (0 <= r)%Q ->
  (0 <= normalPct (gaugeBands m r))%Q /\
  (0 <= warningPct (gaugeBands m r))%Q /\
  (0 <= criticalPct (gaugeBands m r))%Q /\
  (0 <= remainingPct (gaugeBands m r))%Q.
Proof.
  intros Hm Hr. pose proof (powerPercentage_nonneg m r Hm Hr) as Hpct.
  gauge_cases; repeat split; lra.
Qed.

Lemma gaugeBands_nonneg_witness :
  (0 < maxPower)%Q /\ (0 <= 3000)%Q /\
  (0 <= normalPct (gaugeBands maxPower 3000))%Q /\
  (0 <= warningPct (gaugeBands maxPower 3000))%Q /\
  (0 <= criticalPct (gaugeBands maxPower 3000))%Q /\
  (0 <= remainingPct (gaugeBands maxPower 3000))%Q.
Proof.
  split; [reflexivity|]. split; [discriminate|].
  apply (gaugeBands_nonneg 3000 maxPower); [reflexivity | discriminate].
Defined.

(** ** The stable sort *)

Section SortFacts.

Context {A : Type} (before : A -> A -> bool).

Lemma insert_sorted_perm (x : A) (l : list A) :
  Permutation (x :: l) (insert_sorted before x l).
Proof.
  induction l as [|y l IH]; cbn; [reflexivity|].
  destruct (before y x); [|reflexivity].
  rewrite perm_swap. apply perm_skip, IH.
Qed.

Lemma sort_perm (l : list A) : Permutation l (sort before l).
Proof.
  induction l as [|x l IH]; cbn; [constructor|].
  rewrite <- insert_sorted_perm. apply perm_skip, IH.
Qed.

Lemma sort_length (l : list A) : length (sort before l) = length l.
Proof. symmetry. apply Permutation_length, sort_perm. Qed.

Lemma insert_sorted_Forall (P : A -> Prop) (x : A) (l : list A) :
  P x -> Forall P l -> Forall P (insert_sorted before x l).
Proof.
  intros Hx Hl. apply (Permutation_Forall (insert_sorted_perm x l)).
  constructor; assumption.
Qed.

(** Sortedness, for a comparator that decides a transitive order. *)
Section Ordered.

Variable le : A -> A -> Prop.
Hypothesis before_le : forall x y, before x y = true -> le x y.
Hypothesis not_before_le : forall x y, before x y = false -> le y x.
Hypothesis le_trans : forall x y z, le x y -> le y z -> le x z.

Lemma insert_sorted_sorted (x : A) (l : list A) :
  StronglySorted le l -> StronglySorted le (insert_sorted before x l).
Proof using before_le not_before_le le_trans.
  induction 1 as [|y l Hl IH Hy]; cbn.
  - repeat constructor.
  - destruct (before y x) eqn:E.
    + constructor; [exact IH|].
      apply insert_sorted_Forall; [apply before_le, E | exact Hy].
    + apply not_before_le in E.
      constructor; [constructor; assumption|].
      constructor; [exact E|].
      eapply Forall_impl; [exact Hy|]. intros z Hz. eapply le_trans; eassumption.
Qed.

Lemma sort_sorted (l : list A) : StronglySorted le (sort before l).
Proof using before_le not_before_le le_trans.
  induction l as [|x l IH]; cbn; [constructor|].
  apply insert_sorted_sorted, IH.
Qed.

End Ordered.

(** Stability: a class [p] of elements that are neither smaller nor
    larger than each other keeps its order. *)
Section Stable.

Variable p : A -> bool.
Hypothesis p_class : forall x y, p x = true -> before y x = true -> p y = false.

Lemma insert_sorted_filter (x : A) (l : list A) :
  List.filter p (insert_sorted before x l)
  = if p x then x :: List.filter p l else List.filter p l.
Proof using p_class.
  induction l as [|y l IH]; cbn.
  - destruct (p x); reflexivity.
  - destruct (before y x) eqn:E; cbn.
    + rewrite IH. destruct (p x) eqn:Ex.
      * rewrite (p_class x y Ex E). reflexivity.
      * reflexivity.
    + destruct (p x); reflexivity.
Qed.

Lemma sort_filter (l : list A) : List.filter p (sort before l) = List.filter p l.
Proof using p_class.
  induction l as [|x l IH]; cbn; [reflexivity|].
  rewrite insert_sorted_filter, IH. reflexivity.
Qed.

End Stable.

End SortFacts.

(** ** The daily power curve *)


Lemma sortedData_sorted (data : list RawSample) :
  StronglySorted timeOrdered (sortedData data).
Proof.
  apply sort_sorted; unfold byTimeStamp, timeOrdered.
  - intros x y H. apply ltb_lt in H. lra.
  - intros x y H. apply ltb_ge in H. exact H.
  - intros x y z Hxy Hyz. lra.
Qed.

Lemma sortedData_stable (t : Q) (data : list RawSample) :
  List.filter (atTimeStamp t) (sortedData data) = List.filter (atTimeStamp t) data.
Proof.
  apply sort_filter. unfold atTimeStamp, byTimeStamp. intros x y Hx Hlt.
  apply Qeq_bool_eq in Hx. apply ltb_lt in Hlt.
  destruct (Qeq_bool (TimeStamp y) t) eqn:E; [|reflexivity].
  apply Qeq_bool_eq in E. lra.
Qed.

(** C6: for every non-empty array of samples the chart receives the
    samples in ascending order of timestamp, whatever the input order;
    samples of one timestamp keep their relative order; the labels and
    the values are those of the same sample at every position. *)
Theorem updateTimeSeries_sorted_stable
  (toLocaleTimeString : Q -> string) (data : list RawSample)
  (d : Dashboard) (chart : TimeSeriesChart) :
  data <> [] ->
  powerTimeSeriesChart d = Some chart ->
  exists labels powers,
    powerTimeSeriesChart (updateTimeSeries toLocaleTimeString (Some data) d)
    = Some {| tsLabels := labels; tsData := powers |} /\
    Permutation data (sortedData data) /\
    StronglySorted timeOrdered (sortedData data) /\
    (forall t, List.filter (atTimeStamp t) (sortedData data)
               = List.filter (atTimeStamp t) data) /\
    length labels = length data /\
    length powers = length data /\
    (forall i item, sortedData data !! i = Some item ->
       labels !! i = Some (sampleLabel toLocaleTimeString item) /\
       powers !! i = Some (samplePower item)).
Proof.
  intros Hne Hchart.
  exists (map (sampleLabel toLocaleTimeString) (sortedData data)),
         (map samplePower (sortedData data)).
  split; [|split; [|split; [|split; [|split; [|split]]]]].
  - destruct data as [|x data]; [congruence|].
    unfold updateTimeSeries. rewrite Hchart. reflexivity.
  - apply sort_perm.
  - apply sortedData_sorted.
  - intros t. apply sortedData_stable.
  - rewrite length_map. apply sort_length.
  - rewrite length_map. apply sort_length.
  - intros i item Hi. split.
    + change (map (sampleLabel toLocaleTimeString) (sortedData data))
        with (sampleLabel toLocaleTimeString <$> sortedData data).
      rewrite list_lookup_fmap, Hi. reflexivity.
    + change (map samplePower (sortedData data)) with (samplePower <$> sortedData data).
      rewrite list_lookup_fmap, Hi. reflexivity.
Qed.

(** The samples of the specification: timestamp 100 before timestamp 50
    on input, 50 before 100 on the chart. *)
Lemma updateTimeSeries_sorted_stable_witness :
  let data := [ {| TimeStamp := 100; Power := Some 200%Q |};
                {| TimeStamp := 50; Power := Some 300%Q |} ] in
  exists labels powers,
    powerTimeSeriesChart (updateTimeSeries exampleTimeLabel (Some data) initialDashboard)
    = Some {| tsLabels := labels; tsData := powers |} /\
    Permutation data (sortedData data) /\
    StronglySorted timeOrdered (sortedData data) /\
    (forall t, List.filter (atTimeStamp t) (sortedData data)
               = List.filter (atTimeStamp t) data) /\
    length labels = length data /\
    length powers = length data /\
    (forall i item, sortedData data !! i = Some item ->
       labels !! i = Some (sampleLabel exampleTimeLabel item) /\
       powers !! i = Some (samplePower item)).
Proof.
  intros data.
  apply (updateTimeSeries_sorted_stable exampleTimeLabel data initialDashboard
           {| tsLabels := []; tsData := [] |}).
  - discriminate.
  - reflexivity.
Defined.

Example updateTimeSeries_example :
  powerTimeSeriesChart
    (updateTimeSeries exampleTimeLabel
       (Some [ {| TimeStamp := 100; Power := Some 200%Q |};
               {| TimeStamp := 50; Power := Some 300%Q |} ])
       initialDashboard)
  = Some {| tsLabels := ["0"; "1"]; tsData := [300; 200] |}.
Proof. vm_compute. reflexivity. Qed.

(** Samples of one timestamp stay in input order. *)
Example sortedData_ties :
  sortedData [ {| TimeStamp := 7; Power := Some 1%Q |};
               {| TimeStamp := 3; Power := None |};
               {| TimeStamp := 7; Power := Some 2%Q |};
               {| TimeStamp := 3; Power := Some 4%Q |} ]
  = [ {| TimeStamp := 3; Power := None |};
      {| TimeStamp := 3; Power := Some 4%Q |};
      {| TimeStamp := 7; Power := Some 1%Q |};
      {| TimeStamp := 7; Power := Some 2%Q |} ].
Proof. reflexivity. Qed.

(** An empty array and a payload that is not an array give the "no
    data" signal. *)
Lemma updateTimeSeries_noData (toLocaleTimeString : Q -> string)
  (data : option (list RawSample)) (d : Dashboard) :
  data = None \/ data = Some [] ->
  updateTimeSeries toLocaleTimeString data d
  = set_powerChartOverlay (showNoData (powerChartOverlay d)) d.
Proof. intros [-> | ->]; reflexivity. Qed.

(** C9, as stated, fails: a sample of power [-5] is charted as [-5]. *)
Lemma samplePower_negative :
  powerTimeSeriesChart
    (updateTimeSeries exampleTimeLabel
       (Some [ {| TimeStamp := 60; Power := Some (-5)%Q |} ]) initialDashboard)
  = Some {| tsLabels := ["1"]; tsData := [-5] |} /\
  ~ (0 <= samplePower {| TimeStamp := 60; Power := Some (-5)%Q |}).
Proof.
  split; [vm_compute; reflexivity|].
  vm_compute. intros H. apply H. reflexivity.
Qed.

(** C9, amended: the emitted value is the integer [Math.round(Power || 0)];
    it is 0 for a missing power, and it is at least 0 exactly when the
    raw power is at least [-1/2]. *)
Theorem samplePower_sign (item : RawSample) :
  (Power item = None -> samplePower item = 0) /\
  (forall q, Power item = Some q ->
     samplePower item = Js.round q /\
     (0 <= samplePower item <-> (-(1 # 2) <= q)%Q)).
Proof.
  unfold samplePower. split.
  - intros ->. reflexivity.
  - intros q ->.
    assert (Hr : Js.round (Js.or_zero (Some q)) = Js.round q).
    { unfold Js.round. apply Qfloor_comp. rewrite or_zero_eq. reflexivity. }
    rewrite Hr. split; [reflexivity | apply round_nonneg].
Qed.

(** ** Callbacks that may throw *)

Lemma at_index_lookup {A : Type} (l : list A) (i : nat) (x : A) :
  l !! i = Some x -> at_index l i = Return x.
Proof. intros H. unfold at_index. rewrite H. reflexivity. Qed.

Lemma at_index_in_range {A : Type} (l : list A) (i : nat) :
  (i < length l)%nat -> exists x, l !! i = Some x /\ at_index l i = Return x.
Proof.
  intros H. destruct (lookup_lt_is_Some_2 l i H) as [x Hx].
  exists x. split; [exact Hx | apply at_index_lookup, Hx].
Qed.

(** A [map] whose callback returns at every position returns, with one
    result per element. *)
Lemma mapi_from_returns {A B : Type} (f : A -> nat -> Outcome B) (l : list A) (i : nat) :
  (forall j x, l !! j = Some x -> exists y, f x (i + j)%nat = Return y) ->
  exists ys, mapi_from i f l = Return ys /\
    length ys = length l /\
    forall j x, l !! j = Some x ->
      exists y, ys !! j = Some y /\ f x (i + j)%nat = Return y.
Proof.
  revert i. induction l as [|x l IH]; intros i Hf.
  - exists []. repeat split. intros j x Hx. discriminate.
  - destruct (Hf 0%nat x eq_refl) as [y Hy].
    destruct (IH (S i)) as (ys & Hys & Hlen & Hnth).
    { intros j z Hz. destruct (Hf (S j) z Hz) as [w Hw].
      exists w. rewrite <- Hw. f_equal. lia. }
    exists (y :: ys). split; [|split].
    + cbn. rewrite Nat.add_0_r in Hy. rewrite Hy. cbn. rewrite Hys. reflexivity.
    + cbn. rewrite Hlen. reflexivity.
    + intros [|j] z Hz.
      * cbn in Hz. injection Hz as <-. exists y. split; [reflexivity | exact Hy].
      * cbn in Hz. destruct (Hnth j z Hz) as (w & Hw & Hfw).
        exists w. split; [exact Hw|]. rewrite <- Hfw. f_equal. lia.
Qed.

(** ** The yearly reducer *)

Lemma yearDifference_returns (sorted : list YearEntry) (j : nat) (entry : YearEntry) :
  sorted !! j = Some entry ->
  exists y, yearDifference sorted entry j = Return y.
Proof.
  intros Hj. unfold yearDifference. destruct j as [|j]; cbn [Nat.eqb]; [eauto|].
  destruct (at_index_in_range sorted (S j - 1)) as (p & _ & Hp).
  { apply lookup_lt_Some in Hj. lia. }
  rewrite Hp. cbn. eauto.
Qed.

(** The run of [differences]: it returns, one delta per entry, each the
    result of the callback at its position. *)
Lemma differences_run (sorted : list YearEntry) :
  exists deltaKwh,
    differences sorted = Return deltaKwh /\
    length deltaKwh = length sorted /\
    forall j entry, sorted !! j = Some entry ->
      exists y, deltaKwh !! j = Some y /\ yearDifference sorted entry j = Return y.
Proof.
  unfold differences, mapi.
  apply (mapi_from_returns (yearDifference sorted) sorted 0).
  intros j x Hx. apply yearDifference_returns, Hx.
Qed.

(** C2: the delta series has the length of the year series; its first
    element is the first cumulative value as it is; every later element
    is [max (0, kwh[i] - kwh[i-1])]. *)
Theorem differences_spec (sorted : list YearEntry) :
  exists deltaKwh,
    differences sorted = Return deltaKwh /\
    length deltaKwh = length sorted /\
    (forall first, sorted !! 0%nat = Some first -> deltaKwh !! 0%nat = Some (kwh first)) /\
    (forall i entry previous,
       (0 < i)%nat ->
       sorted !! i = Some entry ->
       sorted !! (i - 1)%nat = Some previous ->
       deltaKwh !! i = Some (Js.max0 (Js.sub (kwh entry) (kwh previous)))) /\
    (forall i a b,
       (0 < i)%nat ->
       kwh <$> sorted !! i = Some (Some a) ->
       kwh <$> sorted !! (i - 1)%nat = Some (Some b) ->
       deltaKwh !! i = Some (Some (Z.max 0 (a - b)))).
Proof.
  destruct (differences_run sorted) as (deltaKwh & Hrun & Hlen & Hnth).
  assert (Hlater : forall i entry previous,
             (0 < i)%nat -> sorted !! i = Some entry ->
             sorted !! (i - 1)%nat = Some previous ->
             deltaKwh !! i = Some (Js.max0 (Js.sub (kwh entry) (kwh previous)))).
  { intros i entry previous Hi He Hp.
    destruct (Hnth i entry He) as (y & Hy & Hf). unfold yearDifference in Hf.
    destruct i as [|i]; [lia|]. cbn [Nat.eqb] in Hf.
    rewrite (at_index_lookup _ _ _ Hp) in Hf. cbn in Hf.
    injection Hf as <-. exact Hy. }
  exists deltaKwh. split; [exact Hrun|]. split; [exact Hlen|]. split; [|split].
  - intros first Hfirst. destruct (Hnth 0%nat first Hfirst) as (y & Hy & Hf).
    cbn in Hf. injection Hf as <-. exact Hy.
  - exact Hlater.
  - intros i a b Hi Ha Hb.
    destruct (sorted !! i) as [entry|] eqn:He; [|discriminate].
    destruct (sorted !! (i - 1)%nat) as [previous|] eqn:Hp; [|discriminate].
    cbn in Ha, Hb. injection Ha as Ha. injection Hb as Hb.
    rewrite (Hlater i entry previous Hi He Hp), Ha, Hb. reflexivity.
Qed.

(** The series of the specification: cumulative 1000, 1500, 1200 kWh. *)
Example differences_example :
  differences [ {| year := JNum 2022; kwh := Some 1000 |};
                {| year := JNum 2023; kwh := Some 1500 |};
                {| year := JNum 2024; kwh := Some 1200 |} ]
  = Return [Some 1000; Some 500; Some 0].
Proof. reflexivity. Qed.

(** The first year is reported as it is, also when it is negative. *)
Example differences_first_not_clamped :
  differences [ {| year := JNum 2022; kwh := Some (-3) |};
                {| year := JNum 2023; kwh := Some 4 |} ]
  = Return [Some (-3); Some 7].
Proof. reflexivity. Qed.

(** ** The mean of the full years *)

Lemma add_assoc (a b c : option Z) : Js.add (Js.add a b) c = Js.add a (Js.add b c).
Proof. destruct a, b, c; cbn; try reflexivity. f_equal. lia. Qed.

Lemma fold_left_add (l : list (option Z)) (a : option Z) :
  fold_left Js.add l a = Js.add a (seriesSum l).
Proof.
  revert a. induction l as [|x l IH]; intros a; cbn.
  - destruct a; cbn; [f_equal; lia | reflexivity].
  - rewrite IH. apply add_assoc.
Qed.

Lemma reduce_add_sum (l : list (option Z)) : reduce_add l = seriesSum l.
Proof.
  unfold reduce_add. rewrite fold_left_add.
  destruct (seriesSum l); reflexivity.
Qed.

Section MeanFacts.

Variable StringToNumber : string -> option Q.
Variable currentYear : Z.

(** Past the first position the index test of the filter always holds:
    the filter keeps the differences of the entries whose year is not
    the current one. *)
Lemma fullYear_filter_from (sorted suf : list YearEntry) :
  forall (deltaKwh : list (option Z)) (pre : list YearEntry),
    sorted = pre ++ suf ->
    pre <> [] ->
    length deltaKwh = length suf ->
    filteri_from (length pre)
      (fun _ idx => isFullYear StringToNumber currentYear sorted idx) deltaKwh
    = Return (map snd
                (List.filter
                   (fun p => notCurrentYear StringToNumber currentYear (year (fst p)))
                   (combine suf deltaKwh))).
Proof.
  induction suf as [|x suf IH]; intros deltaKwh pre Hsorted Hpre Hlen.
  - destruct deltaKwh; [reflexivity | discriminate].
  - destruct deltaKwh as [|dk deltaKwh]; [discriminate|].
    cbn [filteri_from]. unfold isFullYear at 1.
    rewrite (at_index_lookup sorted (length pre) x).
    2: { rewrite Hsorted. apply list_lookup_middle. reflexivity. }
    cbn [bindO].
    assert (Hpos : Nat.ltb 0 (length pre) = true).
    { apply Nat.ltb_lt. destruct pre; [congruence | cbn; lia]. }
    rewrite Hpos. cbn [andb].
    replace (S (length pre)) with (length (pre ++ [x])).
    2: { rewrite length_app. cbn. lia. }
    rewrite (IH deltaKwh (pre ++ [x])).
    + cbn. destruct (notCurrentYear StringToNumber currentYear (year x)); reflexivity.
    + rewrite Hsorted, <- app_assoc. reflexivity.
    + destruct pre; discriminate.
    + cbn in Hlen. lia.
Qed.

Lemma fullYearDifferences_deltas (sorted : list YearEntry) (deltaKwh : list (option Z)) :
  length deltaKwh = length sorted ->
  fullYearDifferences StringToNumber currentYear sorted deltaKwh
  = Return (fullYearDeltas StringToNumber currentYear sorted deltaKwh).
Proof.
  intros Hlen. unfold fullYearDifferences, filteri, fullYearDeltas.
  destruct sorted as [|first rest], deltaKwh as [|dk deltaKwh]; try discriminate.
  - reflexivity.
  - pose proof (fullYear_filter_from (first :: rest) rest deltaKwh [first] eq_refl) as H.
    cbn [length] in H.
    cbn [filteri_from]. unfold isFullYear at 1.
    change (at_index (first :: rest) 0) with (Return first).
    cbn [bindO combine tail]. change (Nat.ltb 0 0) with false. cbn [andb].
    rewrite H; [reflexivity | discriminate | cbn in Hlen; lia].
Qed.

Lemma meanValue_meanKwh (sorted : list YearEntry) (deltaKwh : list (option Z)) :
  deltaKwh <> [] ->
  meanValue (fullYearDeltas StringToNumber currentYear sorted deltaKwh) deltaKwh
  = meanKwh StringToNumber currentYear sorted deltaKwh.
Proof.
  intros Hne. unfold meanValue, meanKwh, arithmeticMean.
  destruct (fullYearDeltas StringToNumber currentYear sorted deltaKwh) as [|x full].
  - destruct deltaKwh as [|dk deltaKwh]; [congruence|].
    cbn [length Nat.ltb Nat.leb]. rewrite reduce_add_sum. reflexivity.
  - cbn [length Nat.ltb Nat.leb]. rewrite reduce_add_sum. reflexivity.
Qed.

End MeanFacts.


Example meanValue_example :
  (let! deltaKwh := differences threeYears in
   let! full := fullYearDifferences exampleStringToNumber 2022 threeYears deltaKwh in
   Return (deltaKwh, full, meanValue full deltaKwh))
  = Return ([Some 100; Some 300; Some 500], [Some 300], Some 300%Q).
Proof. vm_compute. reflexivity. Qed.

(** No full year: the mean is taken over all deltas. *)
Example meanValue_fallback :
  let twoYears := [ {| year := JNum 2021; kwh := Some 100 |};
                    {| year := JNum 2022; kwh := Some 400 |} ] in
  exists mean,
    (let! deltaKwh := differences twoYears in
     let! full := fullYearDifferences exampleStringToNumber 2022 twoYears deltaKwh in
     Return (deltaKwh, full, meanValue full deltaKwh))
    = Return ([Some 100; Some 300], [], Some mean) /\
    (mean == 200)%Q.
Proof. exists (400 # 2)%Q. split; [vm_compute; reflexivity | reflexivity]. Qed.

(** ** The record normaliser *)


Lemma normalizeRecord_year_present (StringToNumber : string -> option Q)
  (item : gmap string JsVal) :
  nullish (year (normalizeRecord StringToNumber item)) = false.
Proof.
  unfold normalizeRecord. cbn [year]. unfold coalesce at 1.
  destruct (nullish (resolveYear item)) eqn:E; [reflexivity | exact E].
Qed.

Lemma resolveYear_entryObject (entry : YearEntry) :
  resolveYear (entryObject entry) = coalesce (year entry) JUndefined.
Proof.
  unfold resolveYear, entryObject. destruct entry as [y k]. cbn [year kwh].
  vm_compute. destruct y; reflexivity.
Qed.

Lemma resolveYield_entryObject (entry : YearEntry) :
  resolveYield (entryObject entry) = JNum 0.
Proof.
  unfold resolveYield, entryObject. destruct entry as [y k]. cbn [year kwh].
  vm_compute. reflexivity.
Qed.

(** The normaliser applied to its own output keeps the year and reads no
    yield: [kwh] is none of the aliases of the yield. *)
Lemma normalizeRecord_entryObject (StringToNumber : string -> option Q)
  (item : gmap string JsVal) :
  normalizeRecord StringToNumber (entryObject (normalizeRecord StringToNumber item))
  = {| year := year (normalizeRecord StringToNumber item); kwh := Some 0 |}.
Proof.
  pose proof (normalizeRecord_year_present StringToNumber item) as Hy.
  generalize dependent (normalizeRecord StringToNumber item). intros entry Hy.
  unfold normalizeRecord.
  rewrite resolveYear_entryObject, resolveYield_entryObject.
  f_equal. unfold coalesce. rewrite Hy. cbn. rewrite Hy. reflexivity.
Qed.

(** C7, as stated, fails: the normaliser applied to its output for the
    canonical record gives 0 kWh, not 5. *)
Lemma normalizeRecord_not_idempotent :
  normalizeRecord exampleStringToNumber
    (entryObject (normalizeRecord exampleStringToNumber canonicalRecord))
  <> normalizeRecord exampleStringToNumber canonicalRecord.
Proof. vm_compute. intros H. discriminate H. Qed.

(** C7, amended: the canonical record normalises to year 2024 and 5 kWh;
    the normaliser applied to that entry, and to any of its outputs,
    keeps the year and gives 0 kWh. *)
Theorem normalizeRecord_canonical (StringToNumber : string -> option Q) :
  normalizeRecord StringToNumber canonicalRecord = {| year := JNum 2024; kwh := Some 5 |} /\
  normalizeRecord StringToNumber (entryObject {| year := JNum 2024; kwh := Some 5 |})
  = {| year := JNum 2024; kwh := Some 0 |} /\
  (forall item,
     normalizeRecord StringToNumber (entryObject (normalizeRecord StringToNumber item))
     = {| year := year (normalizeRecord StringToNumber item); kwh := Some 0 |}).
Proof.
  assert (H : normalizeRecord StringToNumber canonicalRecord
              = {| year := JNum 2024; kwh := Some 5 |}) by (vm_compute; reflexivity).
  split; [exact H|]. split.
  - rewrite <- H at 1. rewrite normalizeRecord_entryObject, H. reflexivity.
  - apply normalizeRecord_entryObject.
Qed.

(** ** Dropped records *)

Section Dropped.

Variable StringToNumber : string -> option Q.

Lemma normalized_app (before after : list (gmap string JsVal)) :
  normalized StringToNumber (before ++ after)
  = normalized StringToNumber before ++ normalized StringToNumber after.
Proof. unfold normalized. rewrite map_app. apply List.filter_app. Qed.

Lemma normalized_drops (item : gmap string JsVal) (before after : list (gmap string JsVal)) :
  hasYear (normalizeRecord StringToNumber item) = false ->
  normalized StringToNumber (before ++ item :: after)
  = normalized StringToNumber (before ++ after).
Proof.
  intros H. rewrite !normalized_app. f_equal.
  unfold normalized. cbn. rewrite H. reflexivity.
Qed.

(** A record with no year under any alias gets the year ['-']. *)
Lemma missing_year_dropped (item : gmap string JsVal) :
  nullish (resolveYear item) = true ->
  hasYear (normalizeRecord StringToNumber item) = false.
Proof.
  intros H. unfold hasYear, normalizeRecord, coalesce. cbn [year]. rewrite H. reflexivity.
Qed.

(** So does a record whose year is the string ['-']. *)
Lemma dash_year_dropped (item : gmap string JsVal) :
  resolveYear item = JStr "-" ->
  hasYear (normalizeRecord StringToNumber item) = false.
Proof.
  intros H. unfold hasYear, normalizeRecord, coalesce. cbn [year]. rewrite H. reflexivity.
Qed.

End Dropped.

(** C10: a record whose year resolves to the present, non-null string
    ['-'] is dropped from the normalised sequence, exactly as a record
    with no year is. *)
Theorem dash_year_record_dropped :
  exists item : gmap string JsVal,
    resolveYear item = JStr "-" /\
    nullish (resolveYear item) = false /\
    (forall StringToNumber before after,
       normalized StringToNumber (before ++ item :: after)
       = normalized StringToNumber (before ++ after)) /\
    (forall StringToNumber missing before after,
       nullish (resolveYear missing) = true ->
       normalized StringToNumber (before ++ missing :: after)
       = normalized StringToNumber (before ++ after)).
Proof.
  exists {[ "year" := JStr "-"; "yield" := JNum 5000 ]}.
  assert (H : resolveYear {[ "year" := JStr "-"; "yield" := JNum 5000 ]} = JStr "-")
    by (vm_compute; reflexivity).
  split; [exact H|]. split; [rewrite H; reflexivity|]. split.
  - intros StringToNumber before after. apply normalized_drops, dash_year_dropped, H.
  - intros StringToNumber missing before after Hm.
    apply normalized_drops, missing_year_dropped, Hm.
Qed.

Example normalized_example :
  normalized exampleStringToNumber
    [ {[ "year" := JStr "-"; "yield" := JNum 5000 ]};
      {[ "Year" := JNum 2021; "Total" := JNum 1234567 ]};
      {[ "total_yield" := JNum 7000 ]};
      {[ "yearVal" := JStr "2023"; "yield" := JNull; "Yield" := JStr "2600" ]} ]
  = [ {| year := JNum 2021; kwh := Some 1235 |};
      {| year := JStr "2023"; kwh := Some 3 |} ].
Proof. vm_compute. reflexivity. Qed.

(** ** [updateYearlyYield] as a whole *)

Section UpdateYearlyYield.

Variable StringToNumber : string -> option Q.
Variable currentYear : Z.

(** The "no data" signal of the reducer. *)
Lemma updateYearlyYield_noData (data : option (list (gmap string JsVal))) (d : Dashboard) :
  data = None \/ data = Some [] \/ yearlyYieldChart d = None ->
  updateYearlyYield StringToNumber currentYear data d
  = Return (set_yearlyChartOverlay (showNoData (yearlyChartOverlay d)) d).
Proof.
  intros [-> | [-> | H]]; [reflexivity | reflexivity |].
  unfold updateYearlyYield. rewrite H. destruct data as [[|x l]|]; reflexivity.
Qed.

(** A non-empty array is rendered when the chart exists: labels, deltas
    and the mean line replace the content of the chart, and the overlay
    is hidden. *)
Lemma updateYearlyYield_rendered (data : list (gmap string JsVal)) (d : Dashboard)
  (chart : YearlyChart) :
  data <> [] ->
  yearlyYieldChart d = Some chart ->
  exists deltaKwh,
    differences (sorted StringToNumber data) = Return deltaKwh /\
    length deltaKwh = length (sorted StringToNumber data) /\
    updateYearlyYield StringToNumber currentYear (Some data) d
    = Return
        (set_yearlyChartOverlay (setActive false (yearlyChartOverlay d))
           (set_yearlyYieldChart
              (Some {| yLabels := map year (sorted StringToNumber data);
                       yData := deltaKwh;
                       yMeanLine :=
                         Some (repeat
                                 (meanValue
                                    (fullYearDeltas StringToNumber currentYear
                                       (sorted StringToNumber data) deltaKwh)
                                    deltaKwh)
                                 (length deltaKwh)) |})
              d)).
Proof.
  intros Hne Hchart.
  destruct (differences_run (sorted StringToNumber data)) as (deltaKwh & Hrun & Hlen & _).
  exists deltaKwh. split; [exact Hrun|]. split; [exact Hlen|].
  destruct data as [|x data]; [congruence|].
  unfold updateYearlyYield. rewrite Hchart. cbv zeta. rewrite Hrun. cbn [bindO].
  rewrite (fullYearDifferences_deltas _ _ _ _ Hlen). reflexivity.
Qed.

(** The reducer never throws. *)
Lemma updateYearlyYield_returns (data : option (list (gmap string JsVal))) (d : Dashboard) :
  exists d', updateYearlyYield StringToNumber currentYear data d = Return d'.
Proof.
  destruct data as [[|x data]|].
  - eexists. apply updateYearlyYield_noData. auto.
  - destruct (yearlyYieldChart d) as [chart|] eqn:Hchart.
    + destruct (updateYearlyYield_rendered (x :: data) d chart) as (deltaKwh & _ & _ & H);
        [discriminate | exact Hchart | eauto].
    + eexists. apply updateYearlyYield_noData. auto.
  - eexists. apply updateYearlyYield_noData. auto.
Qed.

(** When every record of a non-empty array is dropped, the reducer does
    not signal "no data": it empties the chart and hides the overlay. *)
Lemma updateYearlyYield_all_dropped (data : list (gmap string JsVal)) (d : Dashboard)
  (chart : YearlyChart) :
  data <> [] ->
  yearlyYieldChart d = Some chart ->
  normalized StringToNumber data = [] ->
  updateYearlyYield StringToNumber currentYear (Some data) d
  = Return
      (set_yearlyChartOverlay (setActive false (yearlyChartOverlay d))
         (set_yearlyYieldChart
            (Some {| yLabels := []; yData := []; yMeanLine := Some [] |}) d)).
Proof.
  intros Hne Hchart Hdropped.
  destruct data as [|x data]; [congruence|].
  unfold updateYearlyYield. rewrite Hchart.
  unfold sorted. rewrite Hdropped. reflexivity.
Qed.

End UpdateYearlyYield.

(** C4, evaluated where the code departs from it: the array holds one
    record with a yield and no year; the normalised sequence is empty, and
    the reducer returns without the "no data" signal: it hides the overlay
    over an empty chart. *)
Theorem updateYearlyYield_yearless_record
  (StringToNumber : string -> option Q) (currentYear : Z) :
  let data := [ ({[ "yield" := JNum 5000 ]} : gmap string JsVal) ] in
  let page := beginCycle initialDashboard in
  normalized StringToNumber data = [] /\
  yearlyChartOverlay page = Some {| innerHTML := ""; active := true |} /\
  updateYearlyYield StringToNumber currentYear (Some data) page
  = Return
      (set_yearlyChartOverlay (Some {| innerHTML := ""; active := false |})
         (set_yearlyYieldChart
            (Some {| yLabels := []; yData := []; yMeanLine := Some [] |}) page)) /\
  updateYearlyYield StringToNumber currentYear (Some data) page
  <> Return (set_yearlyChartOverlay (showNoData (yearlyChartOverlay page)) page).
Proof.
  intros data page.
  assert (Hdropped : normalized StringToNumber data = []).
  { unfold normalized, data. cbn [map List.filter].
    rewrite missing_year_dropped; [reflexivity | vm_compute; reflexivity]. }
  assert (Hrun := updateYearlyYield_all_dropped StringToNumber currentYear data page
                    {| yLabels := []; yData := []; yMeanLine := None |}
                    ltac:(discriminate) eq_refl Hdropped).
  split; [exact Hdropped|]. split; [reflexivity|]. split; [exact Hrun|].
  rewrite Hrun. intros H. discriminate H.
Qed.

(** The records of the specification, out of order and in watt-hours. *)
Example updateYearlyYield_example :
  updateYearlyYield exampleStringToNumber 2030
    (Some [ {[ "Year" := JNum 2024; "Total" := JNum 1200000 ]};
            {[ "year" := JNum 2022; "yield" := JNum 1000000 ]};
            {[ "year_value" := JStr "2023"; "total_yield" := JNum 1500000 ]} ])
    (beginCycle initialDashboard)
  = Return
      (set_yearlyChartOverlay (Some {| innerHTML := ""; active := false |})
         (set_yearlyYieldChart
            (Some {| yLabels := [JNum 2022; JStr "2023"; JNum 2024];
                     yData := [Some 1000; Some 500; Some 0];
                     yMeanLine := Some (repeat (Some (500 # 2)%Q) 3) |})
            (beginCycle initialDashboard))).
Proof. vm_compute. reflexivity. Qed.

(** ** The refresh cycle *)

Lemma fetchJson_parsed {A : Type} (ok : bool) (status : Z) (envelope : Envelope A) :
  status <> 401 \/ ok = true ->
  fetchJson (Response ok status (Return envelope)) = Return envelope.
Proof.
  intros H. unfold fetchJson.
  destruct ok; [reflexivity|]. destruct H as [H | H]; [|discriminate].
  apply Z.eqb_neq in H. rewrite H. reflexivity.
Qed.

Lemma fetchJson_unauthorized {A : Type} (body : Outcome (Envelope A)) :
  fetchJson (Response false 401 body) = Throw unauthorized.
Proof. reflexivity. Qed.

Lemma fetchJson_failure {A : Type} (r : FetchResult A) (msg : string) :
  fetchJson r = Throw msg <->
  r = NetworkError msg \/
  (exists body, r = Response false 401 body /\ msg = unauthorized) \/
  (exists ok status, r = Response ok status (Throw msg) /\ (ok = true \/ status <> 401)).
Proof.
  unfold fetchJson. split.
  - destruct r as [m | ok status body].
    + intros H. injection H as ->. left. reflexivity.
    + destruct ok; cbn [negb andb].
      * intros ->. right. right. exists true, status. split; [reflexivity | left; reflexivity].
      * destruct (status =? 401) eqn:E.
        -- apply Z.eqb_eq in E. subst status. intros H. injection H as <-.
           right. left. exists body. split; reflexivity.
        -- apply Z.eqb_neq in E. intros ->. right. right.
           exists false, status. split; [reflexivity | right; exact E].
  - intros [-> | [(body & -> & ->) | (ok & status & -> & H)]]; [reflexivity | reflexivity |].
    destruct ok; [reflexivity|]. destruct H as [H | H]; [discriminate|].
    apply Z.eqb_neq in H. cbn. rewrite H. reflexivity.
Qed.

Section FetchFacts.

Variable toLocaleTimeString : Q -> string.
Variable StringToNumber : string -> option Q.
Variable currentYear : Z.

(** On payloads of the documented shape: when the three responses parse
    and none is a 401, each resource whose [success] flag is set is
    transformed and handed to the page, whatever the flags of the other
    two; a fetch that rejects, a body that does not parse or a 401 ends
    the cycle at that resource. *)
Lemma fetchData_documented_shape (up : Upstream) (d : Dashboard) :
  (forall currentData todayData yearlyData,
     fetchJson (apiCurrent up) = Return currentData ->
     fetchJson (apiToday up) = Return todayData ->
     fetchJson (apiYearlyYield up) = Return yearlyData ->
     let d1 := if success currentData
               then updateMetrics (data currentData) (beginCycle d)
               else beginCycle d in
     let d2 := if success todayData
               then updateTimeSeries toLocaleTimeString (data todayData) d1
               else d1 in
     exists d3,
       (if success yearlyData
        then updateYearlyYield StringToNumber currentYear (data yearlyData) d2
        else Return d2) = Return d3 /\
       fetchData toLocaleTimeString StringToNumber currentYear up d = d3) /\
  (forall msg,
     fetchJson (apiCurrent up) = Throw msg ->
     fetchData toLocaleTimeString StringToNumber currentYear up d
     = showError msg (beginCycle d)) /\
  (forall currentData msg,
     fetchJson (apiCurrent up) = Return currentData ->
     fetchJson (apiToday up) = Throw msg ->
     let d1 := if success currentData
               then updateMetrics (data currentData) (beginCycle d)
               else beginCycle d in
     fetchData toLocaleTimeString StringToNumber currentYear up d = showError msg d1) /\
  (forall currentData todayData msg,
     fetchJson (apiCurrent up) = Return currentData ->
     fetchJson (apiToday up) = Return todayData ->
     fetchJson (apiYearlyYield up) = Throw msg ->
     let d1 := if success currentData
               then updateMetrics (data currentData) (beginCycle d)
               else beginCycle d in
     let d2 := if success todayData
               then updateTimeSeries toLocaleTimeString (data todayData) d1
               else d1 in
     fetchData toLocaleTimeString StringToNumber currentYear up d = showError msg d2).
Proof.
  unfold fetchData, tryBlock, bindC, liftO, modify, when, attempt, retC.
  cbv zeta.
  split; [|split; [|split]].
  - intros c t y Hc Ht Hy. rewrite Hc, Ht, Hy.
    destruct (success y) eqn:Sy.
    + match goal with
      | |- exists d3, updateYearlyYield _ _ _ ?d2 = _ /\ _ =>
          destruct (updateYearlyYield_returns StringToNumber currentYear (data y) d2)
            as [d3 Hd3]
      end.
      exists d3. split; [exact Hd3|].
      destruct (success c), (success t); rewrite Hd3; reflexivity.
    + eexists. split; [reflexivity|].
      destruct (success c), (success t); reflexivity.
  - intros msg Hc. rewrite Hc. reflexivity.
  - intros c msg Hc Ht. rewrite Hc, Ht. destruct (success c); reflexivity.
  - intros c t msg Hc Ht Hy. rewrite Hc, Ht, Hy.
    destruct (success c), (success t); reflexivity.
Qed.

End FetchFacts.

(** A response without success on [/api/current] (status 500, a body
    that parses): the other two resources are handed to the page. *)
Example fetchData_non_success_response :
  let page := fetchData exampleTimeLabel exampleStringToNumber 2030 upstreamCurrentRefused
                initialDashboard in
  powerGaugeChart page = powerGaugeChart initialDashboard /\
  powerTimeSeriesChart page = Some {| tsLabels := ["0"; "1"]; tsData := [300; 200] |} /\
  yearlyYieldChart page
  = Some {| yLabels := [JNum 2022; JNum 2023];
            yData := [Some 1000; Some 500];
            yMeanLine := Some [Some 500%Q; Some 500%Q] |} /\
  errorContainer page = "".
Proof. vm_compute. repeat split. Qed.

(** C5, as stated, fails: the fetch of [/api/current] rejects, the other
    two resources would succeed, and neither reaches its chart. *)
Lemma fetchData_failure_blocks :
  let page := fetchData exampleTimeLabel exampleStringToNumber 2030 upstreamCurrentDown
                initialDashboard in
  fetchJson (apiToday upstreamCurrentDown) = Return (mkEnvelope true (Some twoSamples)) /\
  fetchJson (apiYearlyYield upstreamCurrentDown) = Return (mkEnvelope true (Some twoRecords)) /\
  powerTimeSeriesChart page = Some {| tsLabels := []; tsData := [] |} /\
  powerTimeSeriesChart page
  <> powerTimeSeriesChart (updateTimeSeries exampleTimeLabel (Some twoSamples) initialDashboard) /\
  yearlyYieldChart page = Some {| yLabels := []; yData := []; yMeanLine := None |} /\
  errorContainer page = "<div class='error'>Failed to fetch data: Failed to fetch</div>".
Proof.
  vm_compute. repeat split. intros H. discriminate H.
Qed.

(** * Further properties of the code *)

(** ** The gauge: shape of the bands *)

(** X1: the three coloured bands add up to the clamped percentage, and a
    larger reading never shrinks them: the remaining band never grows. *)
Theorem gaugeBands_monotone (m r1 r2 : Q) :
  (0 < m)%Q -> (r1 <= r2)%Q ->
  (normalPct (gaugeBands m r1) + warningPct (gaugeBands m r1) + criticalPct (gaugeBands m r1)
   == powerPercentage m r1)%Q /\
  (remainingPct (gaugeBands m r2) <= remainingPct (gaugeBands m r1))%Q.
Proof.
  intros Hm Hr. split.
  - gauge_cases; lra.
  - assert (Hpct : (powerPercentage m r1 <= powerPercentage m r2)%Q).
    { unfold powerPercentage. apply Q.min_le_compat_r.
      apply Qmult_le_compat_r; [|discriminate].
      unfold Qdiv. apply Qmult_le_compat_r; [exact Hr|].
      apply Qlt_le_weak, Qinv_lt_0_compat, Hm. }
    unfold gaugeBands.
    destruct (Qle_bool (powerPercentage m r1) 60), (Qle_bool (powerPercentage m r1) 80),
      (Qle_bool (powerPercentage m r2) 60), (Qle_bool (powerPercentage m r2) 80);
      cbn [remainingPct]; lra.
Qed.

Lemma gaugeBands_monotone_witness :
  (0 < maxPower)%Q /\ (1000 <= 3000)%Q /\
  (normalPct (gaugeBands maxPower 1000) + warningPct (gaugeBands maxPower 1000)
   + criticalPct (gaugeBands maxPower 1000) == powerPercentage maxPower 1000)%Q /\
  (remainingPct (gaugeBands maxPower 3000) <= remainingPct (gaugeBands maxPower 1000))%Q.
Proof.
  split; [reflexivity|]. split; [discriminate|].
  apply (gaugeBands_monotone maxPower 1000 3000); [reflexivity | discriminate].
Defined.

(** X2: the bands fill in order and each has its ceiling: the warning band
    is used only when the normal band is full at 60, the critical band
    only when the warning band is full at 20, and no band exceeds 60, 20
    and 20; a reading at or above the maximum fills all three and leaves
    nothing. *)
Theorem gaugeBands_contiguous (m r : Q) :
  (0 < m)%Q ->
  (normalPct (gaugeBands m r) <= 60)%Q /\
  (0 <= warningPct (gaugeBands m r) <= 20)%Q /\
  (0 <= criticalPct (gaugeBands m r) <= 20)%Q /\
  ((0 < warningPct (gaugeBands m r))%Q -> (normalPct (gaugeBands m r) == 60)%Q) /\
  ((0 < criticalPct (gaugeBands m r))%Q ->
     (normalPct (gaugeBands m r) == 60)%Q /\ (warningPct (gaugeBands m r) == 20)%Q) /\
  ((m <= r)%Q ->
     (normalPct (gaugeBands m r) == 60)%Q /\ (warningPct (gaugeBands m r) == 20)%Q /\
     (criticalPct (gaugeBands m r) == 20)%Q /\ (remainingPct (gaugeBands m r) == 0)%Q).
Proof.
  intros Hm.
  assert (Hfull : (m <= r)%Q -> (powerPercentage m r == 100)%Q).
  { intros Hr. unfold powerPercentage. apply Q.min_r.
    assert (H1 : (1 <= r / m)%Q) by (apply Qle_shift_div_l; lra).
    lra. }
  gauge_cases; repeat split; try lra; intros Hr;
    try (specialize (Hfull Hr)); repeat split; lra.
Qed.

Lemma gaugeBands_contiguous_witness :
  (0 < maxPower)%Q /\
  (normalPct (gaugeBands maxPower 5000) <= 60)%Q /\
  (0 <= warningPct (gaugeBands maxPower 5000) <= 20)%Q /\
  (0 <= criticalPct (gaugeBands maxPower 5000) <= 20)%Q /\
  ((0 < warningPct (gaugeBands maxPower 5000))%Q ->
     (normalPct (gaugeBands maxPower 5000) == 60)%Q) /\
  ((0 < criticalPct (gaugeBands maxPower 5000))%Q ->
     (normalPct (gaugeBands maxPower 5000) == 60)%Q /\
     (warningPct (gaugeBands maxPower 5000) == 20)%Q) /\
  ((maxPower <= 5000)%Q ->
     (normalPct (gaugeBands maxPower 5000) == 60)%Q /\
     (warningPct (gaugeBands maxPower 5000) == 20)%Q /\
     (criticalPct (gaugeBands maxPower 5000) == 20)%Q /\
     (remainingPct (gaugeBands maxPower 5000) == 0)%Q).
Proof.
  split; [reflexivity|]. apply (gaugeBands_contiguous maxPower 5000). reflexivity.
Defined.

(** ** Rounding *)

Lemma round_div_1000 (z : Z) : Js.round (inject_Z z / 1000) = (z + 500) / 1000.
Proof.
  unfold Js.round.
  assert (H : (inject_Z z / 1000 + (1 # 2) == (z + 500) # 1000)%Q).
  { unfold Qeq, Qdiv, Qmult, Qplus, Qinv, inject_Z. cbn. lia. }
  rewrite (Qfloor_comp _ _ H). reflexivity.
Qed.

Lemma toKwh_integer (StringToNumber : string -> option Q) (wh : Z) :
  toKwh StringToNumber (JNum (inject_Z wh)) = Some ((wh + 500) / 1000).
Proof.
  unfold toKwh, Js.or_else, Js.truthy.
  destruct (Qeq_bool (inject_Z wh) 0) eqn:E; cbn [negb Js.Number].
  - apply Qeq_bool_eq in E. f_equal.
    rewrite <- round_div_1000. unfold Js.round. apply Qfloor_comp. rewrite E. reflexivity.
  - f_equal. apply round_div_1000.
Qed.

(** X3: [Math.round] gives the nearest integer, a half going up: the
    charted power of a sample lies within half a watt of its raw power,
    and a raw power of [n + 1/2] is charted as [n + 1]. *)
Theorem samplePower_nearest (item : RawSample) (q : Q) :
  Power item = Some q ->
  (q - (1 # 2) < inject_Z (samplePower item) <= q + (1 # 2))%Q /\
  (forall n : Z, (q == inject_Z n + (1 # 2))%Q -> samplePower item = n + 1).
Proof.
  intros Hq. unfold samplePower. rewrite Hq.
  assert (Hr : Js.round (Js.or_zero (Some q)) = Js.round q).
  { unfold Js.round. apply Qfloor_comp. rewrite or_zero_eq. reflexivity. }
  rewrite Hr. unfold Js.round.
  pose proof (Qfloor_le (q + (1 # 2))) as Hle.
  pose proof (Qlt_floor (q + (1 # 2))) as Hlt.
  rewrite inject_Z_plus in Hlt. change (inject_Z 1) with 1%Q in Hlt.
  split; [split; lra|].
  intros n Hn.
  assert (H : (q + (1 # 2) == inject_Z (n + 1))%Q).
  { rewrite inject_Z_plus. change (inject_Z 1) with 1%Q. lra. }
  rewrite (Qfloor_comp _ _ H). apply Qfloor_Z.
Qed.

Lemma samplePower_nearest_witness :
  Power {| TimeStamp := 0; Power := Some (-(5 # 2))%Q |} = Some (-(5 # 2))%Q /\
  (-(5 # 2) - (1 # 2)
   < inject_Z (samplePower {| TimeStamp := 0; Power := Some (-(5 # 2))%Q |})
   <= -(5 # 2) + (1 # 2))%Q /\
  (forall n : Z, (-(5 # 2) == inject_Z n + (1 # 2))%Q ->
     samplePower {| TimeStamp := 0; Power := Some (-(5 # 2))%Q |} = n + 1).
Proof.
  split; [reflexivity|].
  apply (samplePower_nearest {| TimeStamp := 0; Power := Some (-(5 # 2))%Q |} (-(5 # 2))).
  reflexivity.
Defined.

(** X4: a yield of [wh] watt-hours, an integer below [2^53] in absolute
    value (the integers a double holds exactly, and on which the double
    division by 1000 rounds as the exact one), is shown as
    [floor ((wh + 500) / 1000)] kWh, by the yearly normaliser and by the
    yield card alike; a missing reading shows as 0 W and 0 kWh. *)
Theorem yield_kwh_rounding (StringToNumber : string -> option Q) (wh : Z) (d : Dashboard) :
  Z.abs wh < 2 ^ 53 ->
  toKwh StringToNumber (JNum (inject_Z wh)) = Some ((wh + 500) / 1000) /\
  (forall p, yieldValue (updateMetrics {| power := p; total_yield := Some (inject_Z wh) |} d)
             = (wh + 500) / 1000) /\
  powerValue (updateMetrics {| power := None; total_yield := None |} d) = 0 /\
  yieldValue (updateMetrics {| power := None; total_yield := None |} d) = 0.
Proof.
  intros _. split; [|split; [|split]].
  - apply toKwh_integer.
  - intros p.
    assert (H : yieldValue (updateMetrics {| power := p; total_yield := Some (inject_Z wh) |} d)
                = Js.round (inject_Z (Js.round (Js.or_zero (Some (inject_Z wh)))) / 1000)).
    { unfold updateMetrics. cbn. destruct (powerGaugeChart d); reflexivity. }
    rewrite H.
    assert (Hr : Js.round (Js.or_zero (Some (inject_Z wh))) = wh).
    { rewrite <- (round_integer wh) at 2. unfold Js.round. apply Qfloor_comp.
      rewrite or_zero_eq. reflexivity. }
    rewrite Hr. apply round_div_1000.
  - unfold updateMetrics. cbn. destruct (powerGaugeChart d); reflexivity.
  - unfold updateMetrics. cbn. destruct (powerGaugeChart d); reflexivity.
Qed.

Lemma yield_kwh_rounding_witness :
  Z.abs 5499 < 2 ^ 53 /\
  toKwh exampleStringToNumber (JNum (inject_Z 5499)) = Some ((5499 + 500) / 1000) /\
  (forall p,
     yieldValue (updateMetrics {| power := p; total_yield := Some (inject_Z 5499) |}
                   initialDashboard)
     = (5499 + 500) / 1000) /\
  powerValue (updateMetrics {| power := None; total_yield := None |} initialDashboard) = 0 /\
  yieldValue (updateMetrics {| power := None; total_yield := None |} initialDashboard) = 0.
Proof.
  split; [reflexivity|].
  apply (yield_kwh_rounding exampleStringToNumber 5499 initialDashboard). reflexivity.
Defined.

(** ** The normaliser: which alias wins *)


(** ** The deltas of a numeric series *)

Lemma growth_nonneg (previous : Z) (cumulative : list Z) :
  Forall (fun d => 0 <= d) (growth previous cumulative).
Proof.
  revert previous. induction cumulative as [|k rest IH]; intros previous; cbn.
  - constructor.
  - constructor; [lia | apply IH].
Qed.

Lemma last_cons_default (k previous : Z) (rest : list Z) :
  List.last (k :: rest) previous = List.last rest k.
Proof.
  revert k previous. induction rest as [|k' rest IH]; intros k previous; [reflexivity|].
  change (List.last (k :: k' :: rest) previous) with (List.last (k' :: rest) previous).
  rewrite (IH k' previous), (IH k' k). reflexivity.
Qed.

Lemma total_growth_ge (previous : Z) (cumulative : list Z) :
  List.last cumulative previous - previous <= total (growth previous cumulative).
Proof.
  revert previous. induction cumulative as [|k rest IH]; intros previous.
  - cbn. lia.
  - specialize (IH k). rewrite last_cons_default.
    change (total (growth previous (k :: rest)))
      with (Z.max 0 (k - previous) + total (growth k rest)). lia.
Qed.

Lemma total_growth_sorted (previous : Z) (cumulative : list Z) :
  Sorted Z.le (previous :: cumulative) ->
  total (growth previous cumulative) = List.last cumulative previous - previous.
Proof.
  revert previous. induction cumulative as [|k rest IH]; intros previous Hs.
  - cbn. lia.
  - apply Sorted_inv in Hs. destruct Hs as [Hs Hhd]. apply HdRel_inv in Hhd.
    rewrite last_cons_default.
    change (total (growth previous (k :: rest)))
      with (Z.max 0 (k - previous) + total (growth k rest)).
    rewrite (IH k Hs). lia.
Qed.

Lemma seriesSum_numbers (l : list Z) : seriesSum (map Some l) = Some (total l).
Proof.
  induction l as [|x l IH]; [reflexivity|].
  cbn. unfold seriesSum in IH. rewrite IH. reflexivity.
Qed.

(** Past the first position, on entries whose [kwh] are numbers, the
    callback of [differences] computes [growth]. *)
Lemma differences_from (sorted suf : list YearEntry) :
  forall (pre : list YearEntry) (p : YearEntry) (kp : Z) (ks : list Z),
    sorted = (pre ++ [p]) ++ suf ->
    kwh p = Some kp ->
    map kwh suf = map Some ks ->
    mapi_from (length (pre ++ [p])) (yearDifference sorted) suf
    = Return (map Some (growth kp ks)).
Proof.
  induction suf as [|e suf IH]; intros pre p kp ks Hsorted Hp Hks.
  - destruct ks; [reflexivity | discriminate].
  - destruct ks as [|k ks]; [discriminate|].
    cbn in Hks. injection Hks as Hk Hks.
    cbn [mapi_from]. unfold yearDifference at 1.
    replace (Nat.eqb (length (pre ++ [p])) 0) with false.
    2: { rewrite length_app. cbn. symmetry. apply Nat.eqb_neq. lia. }
    rewrite (at_index_lookup sorted (length (pre ++ [p]) - 1) p).
    2: { rewrite Hsorted, length_app. cbn [length].
         replace (length pre + 1 - 1)%nat with (length pre) by lia.
         rewrite <- app_assoc. apply list_lookup_middle. reflexivity. }
    cbn [bindO]. rewrite Hk, Hp. cbn [Js.sub Js.max0].
    replace (S (length (pre ++ [p]))) with (length ((pre ++ [p]) ++ [e])).
    2: { rewrite (length_app (pre ++ [p])). cbn. lia. }
    rewrite (IH (pre ++ [p]) e k ks).
    + reflexivity.
    + rewrite Hsorted, <- (app_assoc (pre ++ [p])). reflexivity.
    + exact Hk.
    + exact Hks.
Qed.

Lemma differences_numbers (sorted : list YearEntry) (first : Z) (ks : list Z) :
  map kwh sorted = map Some (first :: ks) ->
  differences sorted = Return (map Some (first :: growth first ks)).
Proof.
  intros H. destruct sorted as [|e rest]; [discriminate|].
  cbn in H. injection H as He Hrest.
  unfold differences, mapi. cbn [mapi_from]. unfold yearDifference at 1.
  cbn [Nat.eqb bindO]. rewrite He.
  pose proof (differences_from (e :: rest) rest [] e first ks eq_refl He Hrest) as Hfrom.
  cbn [app length] in Hfrom. rewrite Hfrom. reflexivity.
Qed.

(** X6: when every cumulative value is a number, each delta after the
    first is at least 0, and the deltas add up to at least the last
    cumulative value: to exactly the last cumulative value when the
    series never decreases. *)
Theorem differences_telescope (sorted : list YearEntry) (first : Z) (ks : list Z) :
  map kwh sorted = map Some (first :: ks) ->
  exists deltas,
    differences sorted = Return (map Some deltas) /\
    deltas = first :: growth first ks /\
    (forall i d, (0 < i)%nat -> deltas !! i = Some d -> 0 <= d) /\
    seriesSum (map Some deltas) = Some (total deltas) /\
    List.last ks first <= total deltas /\
    (Sorted Z.le (first :: ks) -> total deltas = List.last ks first).
Proof.
  intros H. exists (first :: growth first ks).
  split; [apply differences_numbers, H|]. split; [reflexivity|].
  split; [|split; [apply seriesSum_numbers|split]].
  - intros [|i] d Hi Hd; [lia|]. cbn in Hd.
    pose proof (growth_nonneg first ks) as Hall.
    rewrite Forall_forall in Hall. apply Hall.
    eapply list_elem_of_lookup_2. exact Hd.
  - pose proof (total_growth_ge first ks).
    change (total (first :: growth first ks)) with (first + total (growth first ks)). lia.
  - intros Hs.
    change (total (first :: growth first ks)) with (first + total (growth first ks)).
    rewrite (total_growth_sorted first ks Hs). lia.
Qed.

Lemma differences_telescope_witness :
  map kwh threeYears = map Some [100; 400; 900] /\
  exists deltas,
    differences threeYears = Return (map Some deltas) /\
    deltas = 100 :: growth 100 [400; 900] /\
    (forall i d, (0 < i)%nat -> deltas !! i = Some d -> 0 <= d) /\
    seriesSum (map Some deltas) = Some (total deltas) /\
    List.last [400; 900] 100 <= total deltas /\
    (Sorted Z.le [100; 400; 900] -> total deltas = List.last [400; 900] 100).
Proof.
  split; [reflexivity|].
  apply (differences_telescope threeYears 100 [400; 900]). reflexivity.
Defined.

(** A series that dips: the deltas add up to more than the last value. *)
Example differences_overcount :
  differences [ {| year := JNum 2022; kwh := Some 1000 |};
                {| year := JNum 2023; kwh := Some 1500 |};
                {| year := JNum 2024; kwh := Some 1200 |};
                {| year := JNum 2025; kwh := Some 1300 |} ]
  = Return [Some 1000; Some 500; Some 0; Some 100] /\
  total [1000; 500; 0; 100] = 1600.
Proof. split; reflexivity. Qed.

(** ** The mean of the full years, in numbers *)


Section MeanInNumbers.

Variable StringToNumber : string -> option Q.
Variable currentYear : Z.





End MeanInNumbers.


(** The years of the specification: the deltas are 100, 300 and 500,
    the one full year is 2021, the mean is 300. *)
Example fullYearsOf_example :
  fullYearsOf 2022 [2020; 2021; 2022] [100; 300; 500] = [300] /\
  (inject_Z (total [300%Z]) / inject_Z (Z.of_nat (length [300%Z])) == 300)%Q.
Proof. split; reflexivity. Qed.

(** ** The order of the years *)

(** The stable sort sorts a list whose elements the comparator orders,
    whatever it does on other elements. *)
Section SortOn.

Context {A : Type} (before : A -> A -> bool) (le : A -> A -> Prop) (P : A -> Prop).
Hypothesis before_le_on : forall x y, P x -> P y -> before x y = true -> le x y.
Hypothesis not_before_le_on : forall x y, P x -> P y -> before x y = false -> le y x.
Hypothesis le_trans_on : forall x y z, le x y -> le y z -> le x z.

Lemma insert_sorted_sorted_on (x : A) (l : list A) :
  P x -> Forall P l -> StronglySorted le l -> StronglySorted le (insert_sorted before x l).
Proof using before_le_on not_before_le_on le_trans_on.
  intros Px HP Hs. induction Hs as [|y l Hl IH Hy]; cbn.
  - repeat constructor.
  - apply Forall_cons in HP. destruct HP as [Py HP].
    destruct (before y x) eqn:E.
    + constructor; [apply IH, HP|].
      apply insert_sorted_Forall; [apply before_le_on; assumption | exact Hy].
    + apply not_before_le_on in E; [|assumption..].
      constructor; [constructor; assumption|].
      constructor; [exact E|].
      eapply Forall_impl; [exact Hy|]. intros z Hz. eapply le_trans_on; eassumption.
Qed.

Lemma sort_sorted_on (l : list A) :
  Forall P l -> StronglySorted le (sort before l).
Proof using before_le_on not_before_le_on le_trans_on.
  induction l as [|x l IH]; cbn; intros HP; [constructor|].
  apply Forall_cons in HP. destruct HP as [Px HP].
  apply insert_sorted_sorted_on; [exact Px | | apply IH, HP].
  apply (Permutation_Forall (sort_perm before l)), HP.
Qed.

End SortOn.

(** X7: the sorted entries are a permutation of the normalised entries,
    whatever their years; when the year of every entry converts to a
    number they stand in ascending order of year, and entries of one
    year keep the order they arrived in. *)
Theorem sorted_years_ascending
  (StringToNumber : string -> option Q) (data : list (gmap string JsVal)) :
  Permutation (normalized StringToNumber data) (sorted StringToNumber data) /\
  (Forall (fun e => exists q, Number StringToNumber (year e) = Some q)
          (normalized StringToNumber data) ->
   StronglySorted (yearOrdered StringToNumber) (sorted StringToNumber data) /\
   (forall q,
      let sameYear := fun e => match Number StringToNumber (year e) with
                               | Some x => Qeq_bool x q
                               | None => false
                               end in
      List.filter sameYear (sorted StringToNumber data)
      = List.filter sameYear (normalized StringToNumber data))).
Proof.
  unfold sorted. split; [apply sort_perm|]. intros Hnum. split.
  - apply (sort_sorted_on (byYear StringToNumber) (yearOrdered StringToNumber)
             (fun e => exists q, Number StringToNumber (year e) = Some q)).
    + intros x y _ _ H. unfold byYear in H. unfold yearOrdered.
      destruct (Number StringToNumber (year x)) as [qx|]; [|discriminate].
      destruct (Number StringToNumber (year y)) as [qy|]; [|discriminate].
      apply ltb_lt in H. exists qx, qy. repeat split. lra.
    + intros x y [qx Hx] [qy Hy] H. unfold byYear in H. unfold yearOrdered.
      rewrite Hx, Hy in H. apply ltb_ge in H. exists qy, qx. repeat split; assumption.
    + intros x y z (a & b & Ha & Hb & Hab) (b' & c & Hb' & Hc & Hbc).
      rewrite Hb in Hb'. injection Hb' as <-.
      exists a, c. repeat split; [assumption.. | lra].
    + exact Hnum.
  - intros q. cbv zeta. apply sort_filter. intros x y Hx Hlt.
    unfold byYear in Hlt.
    destruct (Number StringToNumber (year y)) as [qy|]; [|reflexivity].
    destruct (Number StringToNumber (year x)) as [qx|]; [|discriminate].
    apply Qeq_bool_eq in Hx. apply ltb_lt in Hlt.
    destruct (Qeq_bool qy q) eqn:E; [|reflexivity].
    apply Qeq_bool_eq in E. lra.
Qed.

Lemma sorted_years_ascending_witness :
  Forall (fun e => exists q, Number exampleStringToNumber (year e) = Some q)
         (normalized exampleStringToNumber twoRecords) /\
  Permutation (normalized exampleStringToNumber twoRecords)
              (sorted exampleStringToNumber twoRecords) /\
  StronglySorted (yearOrdered exampleStringToNumber) (sorted exampleStringToNumber twoRecords) /\
  (forall q,
     let sameYear := fun e => match Number exampleStringToNumber (year e) with
                              | Some x => Qeq_bool x q
                              | None => false
                              end in
     List.filter sameYear (sorted exampleStringToNumber twoRecords)
     = List.filter sameYear (normalized exampleStringToNumber twoRecords)).
Proof.
  assert (H : Forall (fun e => exists q, Number exampleStringToNumber (year e) = Some q)
                (normalized exampleStringToNumber twoRecords)).
  { vm_compute. repeat constructor; eexists; reflexivity. }
  split; [exact H|].
  split; [apply (sorted_years_ascending exampleStringToNumber twoRecords)|].
  apply (sorted_years_ascending exampleStringToNumber twoRecords), H.
Defined.

(** A year that converts to no number compares as equal to every other:
    the sort may leave numeric years out of order around it. *)
Example sorted_unparsable_year :
  map year
    (sorted exampleStringToNumber
       [ {[ "year" := JNum 2024 ]}; {[ "year" := JStr "n/a" ]}; {[ "year" := JNum 2022 ]} ])
  = [JNum 2024; JStr "n/a"; JNum 2022].
Proof. vm_compute. reflexivity. Qed.

(** ** The yearly chart as a whole *)

(** X8: a non-empty array rendered on an existing chart gives one label
    per bar and one point of the mean line per bar, all points equal, at
    most one bar per record; the overlay is hidden, and the gauge, the
    line chart, its overlay, the cards and the banner are left as they
    were. *)
Theorem updateYearlyYield_chart_shape
  (StringToNumber : string -> option Q) (currentYear : Z)
  (data : list (gmap string JsVal)) (d : Dashboard) (chart : YearlyChart) :
  data <> [] ->
  yearlyYieldChart d = Some chart ->
  exists d' c mean,
    updateYearlyYield StringToNumber currentYear (Some data) d = Return d' /\
    yearlyYieldChart d' = Some c /\
    length (yLabels c) = length (yData c) /\
    yMeanLine c = Some (repeat mean (length (yData c))) /\
    (length (yData c) <= length data)%nat /\
    yearlyChartOverlay d' = setActive false (yearlyChartOverlay d) /\
    powerGaugeChart d' = powerGaugeChart d /\
    powerTimeSeriesChart d' = powerTimeSeriesChart d /\
    powerChartOverlay d' = powerChartOverlay d /\
    powerValue d' = powerValue d /\
    yieldValue d' = yieldValue d /\
    errorContainer d' = errorContainer d.
Proof.
  intros Hne Hchart.
  destruct (updateYearlyYield_rendered StringToNumber currentYear data d chart Hne Hchart)
    as (deltaKwh & _ & Hlen & Hrun).
  eexists _, _, _. split; [exact Hrun|]. split; [reflexivity|].
  cbn [yLabels yData yMeanLine]. split; [|split; [reflexivity|split]].
  - rewrite length_map. symmetry. exact Hlen.
  - rewrite Hlen. unfold sorted. rewrite sort_length. unfold normalized.
    etransitivity; [apply List.filter_length_le|]. rewrite length_map. reflexivity.
  - repeat split.
Qed.

Lemma updateYearlyYield_chart_shape_witness :
  twoRecords <> [] /\
  yearlyYieldChart initialDashboard = Some {| yLabels := []; yData := []; yMeanLine := None |} /\
  exists d' c mean,
    updateYearlyYield exampleStringToNumber 2030 (Some twoRecords) initialDashboard
    = Return d' /\
    yearlyYieldChart d' = Some c /\
    length (yLabels c) = length (yData c) /\
    yMeanLine c = Some (repeat mean (length (yData c))) /\
    (length (yData c) <= length twoRecords)%nat /\
    yearlyChartOverlay d' = setActive false (yearlyChartOverlay initialDashboard) /\
    powerGaugeChart d' = powerGaugeChart initialDashboard /\
    powerTimeSeriesChart d' = powerTimeSeriesChart initialDashboard /\
    powerChartOverlay d' = powerChartOverlay initialDashboard /\
    powerValue d' = powerValue initialDashboard /\
    yieldValue d' = yieldValue initialDashboard /\
    errorContainer d' = errorContainer initialDashboard.
Proof.
  split; [discriminate|]. split; [reflexivity|].
  apply (updateYearlyYield_chart_shape exampleStringToNumber 2030 twoRecords initialDashboard
           {| yLabels := []; yData := []; yMeanLine := None |}).
  - discriminate.
  - reflexivity.
Defined.

(** ** What a refresh cycle leaves on the page *)

Lemma updateYearlyYield_frame
  (StringToNumber : string -> option Q) (currentYear : Z)
  (data : option (list (gmap string JsVal))) (d d' : Dashboard) :
  updateYearlyYield StringToNumber currentYear data d = Return d' ->
  powerGaugeChart d' = powerGaugeChart d /\
  powerTimeSeriesChart d' = powerTimeSeriesChart d /\
  powerChartOverlay d' = powerChartOverlay d /\
  errorContainer d' = errorContainer d /\
  ((yearlyChartOverlay d' = showNoData (yearlyChartOverlay d) /\
    yearlyYieldChart d' = yearlyYieldChart d) \/
   (exists x l ch, data = Some (x :: l) /\ yearlyYieldChart d = Some ch /\
      yearlyChartOverlay d' = setActive false (yearlyChartOverlay d))).
Proof.
  intros Hrun.
  assert (Hno : data = None \/ data = Some [] \/ yearlyYieldChart d = None ->
                d' = set_yearlyChartOverlay (showNoData (yearlyChartOverlay d)) d).
  { intros H. rewrite (updateYearlyYield_noData _ _ _ _ H) in Hrun. congruence. }
  destruct data as [[|x l]|].
  - rewrite Hno by auto. repeat split. left. split; reflexivity.
  - destruct (yearlyYieldChart d) as [ch|] eqn:Hchart.
    + destruct (updateYearlyYield_rendered StringToNumber currentYear (x :: l) d ch)
        as (deltaKwh & _ & _ & H); [discriminate | exact Hchart |].
      rewrite H in Hrun. injection Hrun as <-. repeat split.
      right. exists x, l, ch. repeat split.
    + rewrite Hno by auto. repeat split. left. split; [reflexivity | cbn; congruence].
  - rewrite Hno by auto. repeat split. left. split; reflexivity.
Qed.

Lemma updateYearlyYield_rendered_cards
  (StringToNumber : string -> option Q) (currentYear : Z)
  (data : option (list (gmap string JsVal))) (d d' : Dashboard) :
  updateYearlyYield StringToNumber currentYear data d = Return d' ->
  powerValue d' = powerValue d /\ yieldValue d' = yieldValue d.
Proof.
  intros Hrun.
  assert (Hno : data = None \/ data = Some [] \/ yearlyYieldChart d = None ->
                d' = set_yearlyChartOverlay (showNoData (yearlyChartOverlay d)) d).
  { intros H. rewrite (updateYearlyYield_noData _ _ _ _ H) in Hrun. congruence. }
  destruct data as [[|x l]|]; try (rewrite Hno by auto; split; reflexivity).
  destruct (yearlyYieldChart d) as [ch|] eqn:Hchart.
  - destruct (updateYearlyYield_rendered StringToNumber currentYear (x :: l) d ch)
      as (deltaKwh & _ & _ & H); [discriminate | exact Hchart |].
    rewrite H in Hrun. injection Hrun as <-. split; reflexivity.
  - rewrite Hno by auto. split; reflexivity.
Qed.

Lemma showNoData_active (o : option Overlay) (ov : Overlay) :
  showNoData o = Some ov -> active ov = true.
Proof. destruct o; cbn; intros H; [injection H as <-; reflexivity | discriminate]. Qed.

Lemma setActive_active (b : bool) (o : option Overlay) (ov : Overlay) :
  setActive b o = Some ov -> active ov = b.
Proof. destruct o; cbn; intros H; [injection H as <-; reflexivity | discriminate]. Qed.

Lemma updateTimeSeries_frame (toLocaleTimeString : Q -> string)
  (data : option (list RawSample)) (d : Dashboard) :
  let d' := updateTimeSeries toLocaleTimeString data d in
  powerGaugeChart d' = powerGaugeChart d /\
  yearlyYieldChart d' = yearlyYieldChart d /\
  yearlyChartOverlay d' = yearlyChartOverlay d /\
  errorContainer d' = errorContainer d /\
  (powerChartOverlay d' = showNoData (powerChartOverlay d) \/
   powerChartOverlay d' = powerChartOverlay d /\ powerTimeSeriesChart d = None \/
   (exists x l ch, data = Some (x :: l) /\ powerTimeSeriesChart d = Some ch /\
      powerChartOverlay d' = setActive false (powerChartOverlay d))).
Proof.
  cbv zeta. unfold updateTimeSeries.
  destruct data as [[|x l]|]; try (repeat split; left; reflexivity).
  destruct (powerTimeSeriesChart d) as [ch|] eqn:Hchart.
  - repeat split. right. right. exists x, l, ch. repeat split.
  - repeat split. right. left. split; reflexivity.
Qed.

Lemma updateMetrics_frame (data : CurrentData) (d : Dashboard) :
  let d' := updateMetrics data d in
  powerTimeSeriesChart d' = powerTimeSeriesChart d /\
  yearlyYieldChart d' = yearlyYieldChart d /\
  powerChartOverlay d' = powerChartOverlay d /\
  yearlyChartOverlay d' = yearlyChartOverlay d /\
  errorContainer d' = errorContainer d.
Proof.
  cbv zeta. unfold updateMetrics. cbn. destruct (powerGaugeChart d); repeat split.
Qed.

Section CycleFacts.

Variable toLocaleTimeString : Q -> string.
Variable StringToNumber : string -> option Q.
Variable currentYear : Z.

(** The page after the [try] block, resource by resource. *)
Lemma tryBlock_unfold (up : Upstream) (d : Dashboard) :
  tryBlock toLocaleTimeString StringToNumber currentYear up d
  = match fetchJson (apiCurrent up) with
    | Throw msg => (beginCycle d, Throw msg)
    | Return c =>
        let d1 := if success c then updateMetrics (data c) (beginCycle d) else beginCycle d in
        match fetchJson (apiToday up) with
        | Throw msg => (d1, Throw msg)
        | Return t =>
            let d2 := if success t
                      then updateTimeSeries toLocaleTimeString (data t) d1 else d1 in
            match fetchJson (apiYearlyYield up) with
            | Throw msg => (d2, Throw msg)
            | Return y =>
                if success y
                then match updateYearlyYield StringToNumber currentYear (data y) d2 with
                     | Return d3 => (d3, Return tt)
                     | Throw msg => (d2, Throw msg)
                     end
                else (d2, Return tt)
            end
        end
    end.
Proof.
  unfold tryBlock, bindC, liftO, modify, when, attempt, retC.
  destruct (fetchJson (apiCurrent up)) as [c|]; [|reflexivity].
  destruct (success c); cbv zeta;
    (destruct (fetchJson (apiToday up)) as [t|]; [|reflexivity]);
    destruct (success t);
    (destruct (fetchJson (apiYearlyYield up)) as [y|]; [|reflexivity]);
    destruct (success y); reflexivity.
Qed.

(** X9: a chart overlay that is hidden after a refresh cycle had its
    chart rendered in that cycle: its resource and all resources before
    it were fetched and parsed, its [success] flag was set, its data was
    a non-empty array and its chart existed.  After every other cycle
    (a failure, a response without success, the "no data" signal) the
    overlay is active. *)
Theorem fetchData_overlay_hidden (up : Upstream) (d : Dashboard) :
  let d' := fetchData toLocaleTimeString StringToNumber currentYear up d in
  (forall ov, powerChartOverlay d' = Some ov -> active ov = false ->
     exists c t x l ch,
       fetchJson (apiCurrent up) = Return c /\
       fetchJson (apiToday up) = Return t /\ success t = true /\
       data t = Some (x :: l) /\ powerTimeSeriesChart d = Some ch) /\
  (forall ov, yearlyChartOverlay d' = Some ov -> active ov = false ->
     exists c t y x l ch,
       fetchJson (apiCurrent up) = Return c /\
       fetchJson (apiToday up) = Return t /\
       fetchJson (apiYearlyYield up) = Return y /\ success y = true /\
       data y = Some (x :: l) /\ yearlyYieldChart d = Some ch).
Proof.
  cbv zeta. unfold fetchData. rewrite tryBlock_unfold.
  assert (Hb1 : forall ov, powerChartOverlay (beginCycle d) = Some ov -> active ov = true).
  { intros ov. cbn. apply setActive_active. }
  assert (Hb2 : forall ov, yearlyChartOverlay (beginCycle d) = Some ov -> active ov = true).
  { intros ov. cbn. apply setActive_active. }
  assert (Hc1 : powerTimeSeriesChart (beginCycle d) = powerTimeSeriesChart d) by reflexivity.
  assert (Hc2 : yearlyYieldChart (beginCycle d) = yearlyYieldChart d) by reflexivity.
  generalize dependent (beginCycle d). intros d0 Hb1 Hb2 Hc1 Hc2.
  destruct (fetchJson (apiCurrent up)) as [c|msg].
  2: { split; intros ov Hov Hact; cbn in Hov;
       [rewrite (Hb1 ov Hov) in Hact | rewrite (Hb2 ov Hov) in Hact]; discriminate. }
  cbv zeta.
  set (d1 := if success c then updateMetrics (data c) d0 else d0).
  assert (H1 : powerTimeSeriesChart d1 = powerTimeSeriesChart d0 /\
               yearlyYieldChart d1 = yearlyYieldChart d0 /\
               powerChartOverlay d1 = powerChartOverlay d0 /\
               yearlyChartOverlay d1 = yearlyChartOverlay d0).
  { subst d1. destruct (success c); [|repeat split].
    destruct (updateMetrics_frame (data c) d0) as (? & ? & ? & ? & _). repeat split; assumption. }
  destruct H1 as (H1a & H1b & H1c & H1d).
  rewrite <- H1c in Hb1. rewrite <- H1d in Hb2. rewrite <- H1a in Hc1. rewrite <- H1b in Hc2.
  clearbody d1. clear H1a H1b H1c H1d d0.
  destruct (fetchJson (apiToday up)) as [t|msg].
  2: { split; intros ov Hov Hact; cbn in Hov;
       [rewrite (Hb1 ov Hov) in Hact | rewrite (Hb2 ov Hov) in Hact]; discriminate. }
  set (d2 := if success t then updateTimeSeries toLocaleTimeString (data t) d1 else d1).
  assert (H2 : yearlyYieldChart d2 = yearlyYieldChart d1 /\
               yearlyChartOverlay d2 = yearlyChartOverlay d1 /\
               (forall ov, powerChartOverlay d2 = Some ov -> active ov = false ->
                  exists x l ch, success t = true /\ data t = Some (x :: l) /\
                                 powerTimeSeriesChart d1 = Some ch)).
  { subst d2. destruct (success t).
    - destruct (updateTimeSeries_frame toLocaleTimeString (data t) d1)
        as (_ & Ha & Hb & _ & Hc).
      split; [exact Ha|]. split; [exact Hb|].
      intros ov Hov Hact. destruct Hc as [Hc | [[Hc _] | (x & l & ch & Hd & Hch & _)]].
      + rewrite Hc in Hov. rewrite (showNoData_active _ _ Hov) in Hact. discriminate.
      + rewrite Hc in Hov. rewrite (Hb1 ov Hov) in Hact. discriminate.
      + exists x, l, ch. repeat split; assumption.
    - split; [reflexivity|]. split; [reflexivity|].
      intros ov Hov Hact. rewrite (Hb1 ov Hov) in Hact. discriminate. }
  destruct H2 as (H2a & H2b & H2c).
  rewrite <- H2b in Hb2. rewrite <- H2a in Hc2. clearbody d2.
  assert (Hpower : forall d3 : Dashboard,
             powerChartOverlay d3 = powerChartOverlay d2 ->
             forall ov, powerChartOverlay d3 = Some ov -> active ov = false ->
               exists c0 t0 x l ch,
                 Return (A := Envelope CurrentData) c = Return c0 /\
                 Return (A := Envelope (option (list RawSample))) t = Return t0 /\
                 success t0 = true /\ data t0 = Some (x :: l) /\
                 powerTimeSeriesChart d = Some ch).
  { intros d3 Heq ov Hov Hact. rewrite Heq in Hov.
    destruct (H2c ov Hov Hact) as (x & l & ch & Hs & Hd & Hch).
    exists c, t, x, l, ch. rewrite <- Hc1. repeat split; assumption. }
  destruct (fetchJson (apiYearlyYield up)) as [y|msg].
  2: { split; [apply Hpower; reflexivity|].
       intros ov Hov Hact. cbn in Hov. rewrite (Hb2 ov Hov) in Hact. discriminate. }
  destruct (success y) eqn:Sy.
  2: { split; [apply Hpower; reflexivity|].
       intros ov Hov Hact. rewrite (Hb2 ov Hov) in Hact. discriminate. }
  destruct (updateYearlyYield StringToNumber currentYear (data y) d2) as [d3|msg] eqn:Hrun.
  2: { split; [apply Hpower; reflexivity|].
       intros ov Hov Hact. cbn in Hov. rewrite (Hb2 ov Hov) in Hact. discriminate. }
  destruct (updateYearlyYield_frame _ _ _ _ _ Hrun) as (_ & _ & Hov3 & _ & Hy).
  split; [apply Hpower, Hov3|].
  intros ov Hov Hact. destruct Hy as [[Hy _] | (x & l & ch & Hd & Hch & _)].
  - rewrite Hy in Hov. rewrite (showNoData_active _ _ Hov) in Hact. discriminate.
  - exists c, t, y, x, l, ch. rewrite <- Hc2. repeat split; assumption.
Qed.

End CycleFacts.

(** ** Strings *)

Lemma strip_prefix_app (pat s : string) :
  JsString.strip_prefix pat (String.append pat s) = Some s.
Proof.
  induction pat as [|a pat IH]; [reflexivity|].
  change (String.append (String a pat) s) with (String a (String.append pat s)).
  cbn -[Ascii.eqb]. rewrite Ascii.eqb_refl. exact IH.
Qed.

Lemma remove_first_prefix (pat s : string) :
  JsString.remove_first pat (String.append pat s) = s.
Proof.
  destruct (String.append pat s) eqn:E; cbn; rewrite <- E, strip_prefix_app; reflexivity.
Qed.

Lemma remove_first_absent (pat s : string) :
  JsString.includes pat s = false -> JsString.remove_first pat s = s.
Proof.
  induction s as [|c s IH]; cbn.
  - destruct (JsString.strip_prefix pat ""); [discriminate | reflexivity].
  - destruct (JsString.strip_prefix pat (String c s)); [discriminate|].
    intros H. rewrite (IH H). reflexivity.
Qed.

Lemma truthy_nonempty (s : string) : s <> "" -> JsString.truthy (Some s) = true.
Proof.
  intros H. cbn. destruct (String.eqb s "") eqn:E; [|reflexivity].
  apply String.eqb_eq in E. contradiction.
Qed.


(** ** The stored token *)

Lemma getPwaToken_session (b : Client.Browser) (token : string) :
  token <> "" ->
  Client.sessionStorage b !! "pwaToken" = Some token ->
  Client.getPwaToken b = Some token.
Proof.
  intros Hne H. unfold Client.getPwaToken, JsString.or_else.
  rewrite H, (truthy_nonempty token Hne). reflexivity.
Qed.

(** X11: after the sign-in form has stored a non-empty token,
    [getPwaToken] returns it, whatever the storages held; a refused or
    failed sign-in stores nothing and stays on the page; after the
    logout button, [getPwaToken] returns [null], whatever the storages
    held. *)
Theorem token_sign_in_sign_out (token : string) (b : Client.Browser) :
  token <> "" ->
  Client.getPwaToken (Client.submitToken token (Client.Answered true) b) = Some token /\
  Client.location (Client.submitToken token (Client.Answered true) b) = "/" /\
  Client.submitToken token (Client.Answered false) b = b /\
  Client.submitToken token Client.Rejected b = b /\
  Client.getPwaToken (Client.logout b) = None /\
  Client.getPwaToken
    (Client.logout (Client.submitToken token (Client.Answered true) b)) = None.
Proof.
  intros Hne.
  assert (Hout : forall b0, Client.getPwaToken (Client.logout b0) = None).
  { intros b0. unfold Client.getPwaToken, Client.logout, JsString.or_else. cbn.
    rewrite !lookup_delete_eq. reflexivity. }
  split; [|split; [reflexivity|split; [reflexivity|split; [reflexivity|split]]]].
  - apply getPwaToken_session; [exact Hne|]. cbn. apply lookup_insert_eq.
  - apply Hout.
  - apply Hout.
Qed.

Lemma token_sign_in_sign_out_witness :
  let b := {| Client.sessionStorage := ∅;
              Client.localStorage := {[ "pwaToken" := "old" ]};
              Client.API_SECRET := None;
              Client.location := "/auth.html" |} in
  "s3cret" <> "" /\
  Client.getPwaToken (Client.submitToken "s3cret" (Client.Answered true) b) = Some "s3cret" /\
  Client.location (Client.submitToken "s3cret" (Client.Answered true) b) = "/" /\
  Client.submitToken "s3cret" (Client.Answered false) b = b /\
  Client.submitToken "s3cret" Client.Rejected b = b /\
  Client.getPwaToken (Client.logout b) = None /\
  Client.getPwaToken
    (Client.logout (Client.submitToken "s3cret" (Client.Answered true) b)) = None.
Proof.
  intros b. split; [discriminate|].
  apply (token_sign_in_sign_out "s3cret" b). discriminate.
Defined.

(** X12: [checkPwaAuth] never writes to [localStorage].  When
    [/auth-check] refuses the token, it removes the token from
    [sessionStorage] only and goes to the sign-in page: a token the
    sign-in form stored is still what [getPwaToken] returns afterwards.
    When the check cannot be fetched, nothing changes. *)
Theorem checkPwaAuth_keeps_local_token
  (authCheck : string -> Client.Answer) (token : string) (b : Client.Browser) :
  token <> "" ->
  let signedIn := Client.submitToken token (Client.Answered true) b in
  (forall b0, Client.localStorage (Client.checkPwaAuth authCheck b0) = Client.localStorage b0) /\
  (authCheck (Client.bearer token) = Client.Answered false ->
     let after := Client.checkPwaAuth authCheck signedIn in
     Client.location after = "/auth.html" /\
     Client.sessionStorage after !! "pwaToken" = None /\
     Client.getPwaToken after = Some token) /\
  (authCheck (Client.bearer token) = Client.Rejected ->
     Client.checkPwaAuth authCheck signedIn = signedIn) /\
  (authCheck (Client.bearer token) = Client.Answered true ->
     Client.checkPwaAuth authCheck signedIn = signedIn).
Proof.
  intros Hne signedIn.
  assert (Htok : Client.getPwaToken signedIn = Some token).
  { apply getPwaToken_session; [exact Hne|]. cbn. apply lookup_insert_eq. }
  split; [|split; [|split]].
  - intros b0. unfold Client.checkPwaAuth.
    destruct (Client.getPwaToken b0) as [t|]; [|reflexivity].
    destruct (JsString.truthy (Some t)); [|reflexivity].
    destruct (authCheck (Client.bearer t)) as [|[|]]; reflexivity.
  - intros Hno. cbv zeta. unfold Client.checkPwaAuth.
    rewrite Htok, (truthy_nonempty token Hne), Hno.
    split; [reflexivity|]. split; [cbn; apply lookup_delete_eq|].
    unfold Client.getPwaToken, JsString.or_else. cbn.
    rewrite lookup_delete_eq, lookup_insert_eq. cbn. reflexivity.
  - intros Hoff. unfold Client.checkPwaAuth.
    rewrite Htok, (truthy_nonempty token Hne), Hoff. reflexivity.
  - intros Hok. unfold Client.checkPwaAuth.
    rewrite Htok, (truthy_nonempty token Hne), Hok. reflexivity.
Qed.

Lemma checkPwaAuth_keeps_local_token_witness :
  let b := {| Client.sessionStorage := ∅;
              Client.localStorage := ∅;
              Client.API_SECRET := None;
              Client.location := "/" |} in
  let authCheck := fun _ : string => Client.Answered false in
  let signedIn := Client.submitToken "stale" (Client.Answered true) b in
  "stale" <> "" /\
  (forall b0, Client.localStorage (Client.checkPwaAuth authCheck b0) = Client.localStorage b0) /\
  (authCheck (Client.bearer "stale") = Client.Answered false ->
     let after := Client.checkPwaAuth authCheck signedIn in
     Client.location after = "/auth.html" /\
     Client.sessionStorage after !! "pwaToken" = None /\
     Client.getPwaToken after = Some "stale") /\
  (authCheck (Client.bearer "stale") = Client.Rejected ->
     Client.checkPwaAuth authCheck signedIn = signedIn) /\
  (authCheck (Client.bearer "stale") = Client.Answered true ->
     Client.checkPwaAuth authCheck signedIn = signedIn).
Proof.
  intros b authCheck signedIn. split; [discriminate|].
  apply (checkPwaAuth_keeps_local_token authCheck "stale" b). discriminate.
Defined.

(** ** The token check of the gateway *)

Lemma verifyPwaToken_secret (secret : string) (authHeader : option string) :
  secret <> "" ->
  Gateway.verifyPwaToken (Some secret) authHeader
  = match authHeader with
    | Some h => String.eqb (JsString.remove_first "Bearer " h) secret
    | None => false
    end.
Proof.
  intros Hne. unfold Gateway.verifyPwaToken. rewrite (truthy_nonempty secret Hne).
  destruct authHeader; reflexivity.
Qed.

(** X13: without a configured secret (undefined or empty) every request
    verifies, with or without a header.  With a secret, a request without
    [Authorization] header does not verify; the header [Bearer t]
    verifies exactly when [t] is the secret; and the scheme is not
    required: a header that does not contain ["Bearer "] verifies exactly
    when it is the secret itself. *)
Theorem verifyPwaToken_accepts (secret : string) :
  secret <> "" ->
  (forall h, Gateway.verifyPwaToken None h = true) /\
  (forall h, Gateway.verifyPwaToken (Some "") h = true) /\
  Gateway.verifyPwaToken (Some secret) None = false /\
  (forall t, Gateway.verifyPwaToken (Some secret) (Some (Client.bearer t)) = true
             <-> t = secret) /\
  (forall h, JsString.includes "Bearer " h = false ->
             (Gateway.verifyPwaToken (Some secret) (Some h) = true <-> h = secret)).
Proof.
  intros Hne. split; [reflexivity|]. split; [reflexivity|].
  split; [apply verifyPwaToken_secret, Hne|]. split.
  - intros t. rewrite (verifyPwaToken_secret secret _ Hne).
    unfold Client.bearer. rewrite remove_first_prefix. apply String.eqb_eq.
  - intros h Hh. rewrite (verifyPwaToken_secret secret _ Hne).
    rewrite (remove_first_absent _ _ Hh). apply String.eqb_eq.
Qed.

Lemma verifyPwaToken_accepts_witness :
  "s3cret" <> "" /\
  (forall h, Gateway.verifyPwaToken None h = true) /\
  (forall h, Gateway.verifyPwaToken (Some "") h = true) /\
  Gateway.verifyPwaToken (Some "s3cret") None = false /\
  (forall t, Gateway.verifyPwaToken (Some "s3cret") (Some (Client.bearer t)) = true
             <-> t = "s3cret") /\
  (forall h, JsString.includes "Bearer " h = false ->
             (Gateway.verifyPwaToken (Some "s3cret") (Some h) = true <-> h = "s3cret")).
Proof.
  split; [discriminate|]. apply (verifyPwaToken_accepts "s3cret"). discriminate.
Defined.

(** The scheme word is removed wherever it first stands. *)
Example verifyPwaToken_scheme_inside :
  Gateway.verifyPwaToken (Some "s3cret") (Some "s3Bearer cret") = true.
Proof. reflexivity. Qed.

Lemma fetchWithAuth_authorization (b : Client.Browser) :
  Client.fetchWithAuth_headers b !! "Authorization"
  = match Client.getPwaToken b with
    | Some token => if JsString.truthy (Some token) then Some (Client.bearer token) else None
    | None => None
    end.
Proof.
  unfold Client.fetchWithAuth_headers. cbv zeta.
  set (headers := match Client.getPwaToken b with
                  | Some token =>
                      if JsString.truthy (Client.getPwaToken b)
                      then <["Authorization" := Client.bearer token]> (∅ : gmap string string)
                      else ∅
                  | None => ∅
                  end).
  assert (H : headers !! "Authorization"
              = match Client.getPwaToken b with
                | Some token =>
                    if JsString.truthy (Some token) then Some (Client.bearer token) else None
                | None => None
                end).
  { subst headers. destruct (Client.getPwaToken b) as [token|]; [|reflexivity].
    destruct (JsString.truthy (Some token)); [apply lookup_insert_eq | reflexivity]. }
  destruct (Client.getApiSecret b) as [secret|]; [|exact H].
  destruct (JsString.truthy (Some secret)); [|exact H].
  rewrite lookup_insert_ne by discriminate. exact H.
Qed.

(** X14: for a stored token that [fetch] sends as it is (printable ASCII,
    no space at its end), the header [fetchWithAuth] builds from it
    passes the token check of the gateway exactly when the stored token
    is the configured secret; a browser without stored token sends no
    header and does not pass. *)
Theorem fetchWithAuth_verifies (secret path : string) (b : Client.Browser) :
  secret <> "" ->
  (forall token, token <> "" -> sentVerbatim token = true ->
     Client.getPwaToken b = Some token ->
     (Gateway.verifyPwaToken (Some secret)
        (Gateway.authorization (requestOf path (Client.fetchWithAuth_headers b))) = true
      <-> token = secret)) /\
  (JsString.truthy (Client.getPwaToken b) = false ->
     Gateway.verifyPwaToken (Some secret)
       (Gateway.authorization (requestOf path (Client.fetchWithAuth_headers b))) = false).
Proof.
  intros Hne. cbn [requestOf Gateway.authorization].
  rewrite fetchWithAuth_authorization, (verifyPwaToken_secret secret _ Hne). split.
  - intros token Htok _ Hget. rewrite Hget, (truthy_nonempty token Htok).
    unfold Client.bearer. rewrite remove_first_prefix. apply String.eqb_eq.
  - intros Hfalsy. destruct (Client.getPwaToken b) as [token|]; [|reflexivity].
    rewrite Hfalsy. reflexivity.
Qed.

Lemma fetchWithAuth_verifies_witness :
  let b := {| Client.sessionStorage := {[ "pwaToken" := "s3cret" ]};
              Client.localStorage := {[ "apiSecret" := "k" ]};
              Client.API_SECRET := None;
              Client.location := "/" |} in
  "s3cret" <> "" /\
  sentVerbatim "s3cret" = true /\
  Client.getPwaToken b = Some "s3cret" /\
  (forall token, token <> "" -> sentVerbatim token = true ->
     Client.getPwaToken b = Some token ->
     (Gateway.verifyPwaToken (Some "s3cret")
        (Gateway.authorization (requestOf "/api/current" (Client.fetchWithAuth_headers b)))
      = true <-> token = "s3cret")) /\
  (JsString.truthy (Client.getPwaToken b) = false ->
     Gateway.verifyPwaToken (Some "s3cret")
       (Gateway.authorization (requestOf "/api/current" (Client.fetchWithAuth_headers b)))
     = false).
Proof.
  intros b. split; [discriminate|]. split; [reflexivity|]. split; [reflexivity|].
  apply (fetchWithAuth_verifies "s3cret" "/api/current" b). discriminate.
Defined.


(** ** The middleware and the sign-in form *)

Lemma public_path (p : string) :
  existsb (fun q => String.eqb p q) Gateway.publicPaths = true <-> In p Gateway.publicPaths.
Proof.
  rewrite existsb_exists. split.
  - intros (q & Hq & E). apply String.eqb_eq in E. subst q. exact Hq.
  - intros H. exists p. split; [exact H | apply String.eqb_refl].
Qed.

(** X16: the middleware passes a request on when its path is
    [/auth.html] or [/auth-check], whatever its headers, and on any other
    path exactly when the token check succeeds.  A request it does not
    pass on is answered with status 401: as JSON when the [Accept]
    header contains [application/json], with the sign-in page
    otherwise. *)
Theorem middleware_decision (secret : option string) (req : Gateway.Request) :
  (In (Gateway.path req) Gateway.publicPaths -> Gateway.middleware secret req = Gateway.Next) /\
  (~ In (Gateway.path req) Gateway.publicPaths ->
     (Gateway.middleware secret req = Gateway.Next
      <-> Gateway.verifyPwaToken secret (Gateway.authorization req) = true) /\
     (Gateway.verifyPwaToken secret (Gateway.authorization req) = false ->
        Gateway.answerOf (Gateway.middleware secret req) = Some (Client.Answered false) /\
        Gateway.middleware secret req
        = if match Gateway.accept req with
             | Some a => JsString.includes "application/json" a
             | None => false
             end
          then Gateway.JsonReply
                 {[ "error" := JStr "Unauthorized";
                    "message" := JStr "Invalid or missing PWA access token" ]} 401
          else Gateway.HtmlReply Gateway.AuthPage 401)).
Proof.
  unfold Gateway.middleware. split.
  - intros H. apply public_path in H. rewrite H. reflexivity.
  - intros H. destruct (existsb _ Gateway.publicPaths) eqn:E.
    { apply public_path in E. contradiction. }
    assert (Haccept :
              JsString.includes "application/json"
                match JsString.or_else (Gateway.accept req) (Some "") with
                | Some a => a
                | None => ""
                end
              = match Gateway.accept req with
                | Some a => JsString.includes "application/json" a
                | None => false
                end).
    { unfold JsString.or_else. destruct (Gateway.accept req) as [a|]; [|reflexivity].
      cbn [JsString.truthy]. destruct (String.eqb a "") eqn:Ea; [|reflexivity].
      apply String.eqb_eq in Ea. subst a. reflexivity. }
    destruct (Gateway.verifyPwaToken secret (Gateway.authorization req)); cbn [negb].
    + split; [split; reflexivity | discriminate].
    + cbv zeta. rewrite Haccept. split.
      * split; [|discriminate].
        destruct (match Gateway.accept req with Some a => _ | None => false end); discriminate.
      * intros _.
        destruct (match Gateway.accept req with Some a => _ | None => false end);
          split; reflexivity.
Qed.

(** A navigation of the browser carries no [Authorization] header: with
    a secret configured the middleware answers it with the sign-in page. *)
Example middleware_navigation :
  Gateway.middleware (Some "s3cret")
    {| Gateway.path := "/"; Gateway.authorization := None;
       Gateway.accept := Some "text/html,application/xhtml+xml" |}
  = Gateway.HtmlReply Gateway.AuthPage 401.
Proof. reflexivity. Qed.

(** X17: the sign-in form validates a token by fetching the path the page
    is shown at.  At [/auth.html] that fetch is answered with status 200
    whatever the token and the secret, behind the middleware or not: the
    form stores every non-empty token and goes to [/]. *)
Theorem sign_in_at_auth_html
  (secret accept : option string) (token : string) (b : Client.Browser) :
  token <> "" ->
  let req := {| Gateway.path := "/auth.html";
                Gateway.authorization := Some (Client.bearer token);
                Gateway.accept := accept |} in
  Gateway.answerOf Gateway.authPage = Some (Client.Answered true) /\
  Gateway.answerOf (Gateway.guarded secret req Gateway.authPage)
  = Some (Client.Answered true) /\
  Client.getPwaToken (Client.submitToken token (Client.Answered true) b) = Some token /\
  Client.location (Client.submitToken token (Client.Answered true) b) = "/".
Proof.
  intros Hne req. split; [reflexivity|]. split; [reflexivity|]. split; [|reflexivity].
  apply getPwaToken_session; [exact Hne|]. cbn. apply lookup_insert_eq.
Qed.

Lemma sign_in_at_auth_html_witness :
  let b := {| Client.sessionStorage := ∅; Client.localStorage := ∅;
              Client.API_SECRET := None; Client.location := "/auth.html" |} in
  let req := {| Gateway.path := "/auth.html";
                Gateway.authorization := Some (Client.bearer "wrong");
                Gateway.accept := None |} in
  "wrong" <> "" /\
  Gateway.answerOf Gateway.authPage = Some (Client.Answered true) /\
  Gateway.answerOf (Gateway.guarded (Some "s3cret") req Gateway.authPage)
  = Some (Client.Answered true) /\
  Client.getPwaToken (Client.submitToken "wrong" (Client.Answered true) b) = Some "wrong" /\
  Client.location (Client.submitToken "wrong" (Client.Answered true) b) = "/".
Proof.
  intros b req. split; [discriminate|].
  apply (sign_in_at_auth_html (Some "s3cret") None "wrong" b). discriminate.
Defined.

(** X18: the middleware is mounted on the path [/] alone.  When the
    sign-in page is shown there, with a secret configured, a token other
    than the secret is answered with 401 and nothing is stored; the
    secret passes the middleware and reaches the handler of [/]. *)
Theorem sign_in_at_root
  (secret token : string) (accept : option string)
  (handler : Gateway.Reply) (b : Client.Browser) :
  secret <> "" ->
  let req := {| Gateway.path := "/";
                Gateway.authorization := Some (Client.bearer token);
                Gateway.accept := accept |} in
  (token <> secret ->
     Gateway.answerOf (Gateway.guarded (Some secret) req handler)
     = Some (Client.Answered false) /\
     Client.submitToken token (Client.Answered false) b = b) /\
  (token = secret -> Gateway.guarded (Some secret) req handler = handler).
Proof.
  intros Hne req.
  assert (Hverify : Gateway.verifyPwaToken (Some secret) (Gateway.authorization req)
                    = String.eqb token secret).
  { rewrite (verifyPwaToken_secret secret _ Hne). cbn [req Gateway.authorization].
    unfold Client.bearer. rewrite remove_first_prefix. reflexivity. }
  assert (Hpublic : existsb (fun q => String.eqb (Gateway.path req) q) Gateway.publicPaths
                    = false) by reflexivity.
  unfold Gateway.guarded, Gateway.middleware. rewrite Hpublic, Hverify. split.
  - intros Hwrong. apply String.eqb_neq in Hwrong. rewrite Hwrong. cbn [negb]. cbv zeta.
    split; [|reflexivity].
    destruct (JsString.includes _ _); reflexivity.
  - intros ->. rewrite String.eqb_refl. reflexivity.
Qed.

Lemma sign_in_at_root_witness :
  let b := {| Client.sessionStorage := ∅; Client.localStorage := ∅;
              Client.API_SECRET := None; Client.location := "/" |} in
  let req := {| Gateway.path := "/";
                Gateway.authorization := Some (Client.bearer "wrong");
                Gateway.accept := None |} in
  "s3cret" <> "" /\
  ("wrong" <> "s3cret" ->
     Gateway.answerOf
       (Gateway.guarded (Some "s3cret") req (Gateway.HtmlReply Gateway.MainPage 200))
     = Some (Client.Answered false) /\
     Client.submitToken "wrong" (Client.Answered false) b = b) /\
  ("wrong" = "s3cret" ->
     Gateway.guarded (Some "s3cret") req (Gateway.HtmlReply Gateway.MainPage 200)
     = Gateway.HtmlReply Gateway.MainPage 200).
Proof.
  intros b req. split; [discriminate|].
  apply (sign_in_at_root "s3cret" "wrong" None (Gateway.HtmlReply Gateway.MainPage 200) b).
  discriminate.
Defined.

(** ** The proxy routes as the refresh cycle sees them *)

(** X19: a proxy route never makes the cycle fail on a fetch or a parse.
    When the upstream API is unreachable or its body does not parse, the
    route answers 500 with a body without [success], which the cycle
    skips; an upstream 401 with a body that parses ends the cycle as
    unauthorized; every other upstream answer is read as the upstream
    sent it. *)
Theorem proxy_as_cycle_reads {J A : Type}
  (readBody : J -> Outcome (Envelope A)) (missing : A) (error : string)
  (upstream : Gateway.UpstreamAnswer J) :
  fetchJson (Gateway.asFetchResult readBody missing (Gateway.proxy error upstream))
  = match upstream with
    | Gateway.UpstreamDown => Return (mkEnvelope false missing)
    | Gateway.UpstreamAnswered _ None => Return (mkEnvelope false missing)
    | Gateway.UpstreamAnswered status (Some body) =>
        if status =? 401 then Throw unauthorized else readBody body
    end.
Proof.
  destruct upstream as [|status [body|]]; [reflexivity | | reflexivity].
  unfold Gateway.proxy, Gateway.asFetchResult, fetchJson, Gateway.ok.
  destruct (status =? 401) eqn:E.
  - apply Z.eqb_eq in E. subst status. reflexivity.
  - rewrite andb_false_r. reflexivity.
Qed.

(** ** The refresh cycle on payloads of any shape *)

Lemma elements_present {A : Type} (l : list A) : elements (map Some l) = Return l.
Proof. induction l as [|x l IH]; [reflexivity|]. cbn. rewrite IH. reflexivity. Qed.

Lemma noNull_present {A : Type} (l : list A) : noNull (map Some l).
Proof. unfold noNull. induction l; constructor; [discriminate | assumption]. Qed.

(** [elements] returns on the arrays without [null], and on no other. *)
Lemma elements_cases {A : Type} (items : list (option A)) :
  (exists l, items = map Some l /\ elements items = Return l) \/
  (~ noNull items /\ elements items = Throw typeError).
Proof.
  induction items as [|[x|] items IH].
  - left. exists []. split; reflexivity.
  - destruct IH as [(l & -> & H) | [Hnull H]].
    + left. exists (x :: l). split; [reflexivity|]. cbn. rewrite H. reflexivity.
    + right. split; [|cbn; rewrite H; reflexivity].
      intros Hall. apply Hnull. apply Forall_cons in Hall. apply Hall.
  - right. split; [|reflexivity].
    intros Hall. apply Forall_cons in Hall. destruct Hall as [Hx _]. congruence.
Qed.

(** A body without [success] is not handed to its transform. *)
Lemma handed_skipped {A : Type} (update : A -> Dashboard -> Outcome Dashboard)
  (data : A) (page : Dashboard) :
  handed update (mkEnvelope false data) page = Return page.
Proof. reflexivity. Qed.

(** What each transform does with its parsed body: it returns, leaving
    the rest of the page as it was, or it throws on a body whose shape it
    cannot read. *)
Lemma handed_metrics (c : Envelope (option CurrentData)) (page : Dashboard) :
  (exists d1,
     handed updateMetricsRaw c page = Return d1 /\
     (success c = true -> data c <> None) /\
     errorContainer d1 = errorContainer page /\
     yearlyYieldChart d1 = yearlyYieldChart page) \/
  (handed updateMetricsRaw c page = Throw typeError /\
   success c = true /\ data c = None).
Proof.
  destruct c as [[|] [cd|]]; unfold handed; cbn [success data updateMetricsRaw].
  - left. exists (updateMetrics cd page). split; [reflexivity|]. split; [discriminate|].
    destruct (updateMetrics_frame cd page) as (_ & Hy & _ & _ & He). split; assumption.
  - right. repeat split.
  - left. exists page. repeat split; discriminate.
  - left. exists page. repeat split; discriminate.
Qed.

Lemma handed_series (toLocaleTimeString : Q -> string)
  (t : Envelope (option (list (option RawSample)))) (page : Dashboard) :
  (exists d2,
     handed (updateTimeSeriesRaw toLocaleTimeString) t page = Return d2 /\
     (success t = true -> forall items, data t = Some items -> noNull items) /\
     errorContainer d2 = errorContainer page /\
     yearlyYieldChart d2 = yearlyYieldChart page) \/
  (handed (updateTimeSeriesRaw toLocaleTimeString) t page = Throw typeError /\
   success t = true /\ exists items, data t = Some items /\ ~ noNull items).
Proof.
  destruct t as [[|] [items|]]; unfold handed; cbn [success data updateTimeSeriesRaw].
  - destruct (elements_cases items) as [(l & -> & H) | [Hnull H]]; rewrite H; cbn [bindO].
    + left. exists (updateTimeSeries toLocaleTimeString (Some l) page).
      split; [reflexivity|].
      split; [intros _ items H'; injection H' as <-; apply noNull_present|].
      destruct (updateTimeSeries_frame toLocaleTimeString (Some l) page)
        as (_ & Hy & _ & He & _).
      split; assumption.
    + right. split; [reflexivity|]. split; [reflexivity|]. exists items. split; [reflexivity|].
      exact Hnull.
  - left. exists (updateTimeSeries toLocaleTimeString None page).
    split; [reflexivity|]. split; [discriminate|].
    destruct (updateTimeSeries_frame toLocaleTimeString None page) as (_ & Hy & _ & He & _).
    split; assumption.
  - left. exists page. repeat split; discriminate.
  - left. exists page. repeat split; discriminate.
Qed.

Lemma updateYearlyYieldRaw_present
  (StringToNumber : string -> option Q) (currentYear : Z)
  (records : option (list (gmap string JsVal))) (page : Dashboard) :
  updateYearlyYieldRaw StringToNumber currentYear (option_map (map Some) records) page
  = updateYearlyYield StringToNumber currentYear records page.
Proof.
  assert (Hno : forall data,
             data = None \/ data = Some [] \/ yearlyYieldChart page = None ->
             updateYearlyYield StringToNumber currentYear data page
             = updateYearlyYield StringToNumber currentYear None page).
  { intros data H. rewrite (updateYearlyYield_noData _ _ _ _ H).
    symmetry. apply updateYearlyYield_noData. left. reflexivity. }
  destruct records as [[|r rs]|]; unfold updateYearlyYieldRaw; cbn [option_map map].
  - symmetry. apply Hno. right. left. reflexivity.
  - destruct (yearlyYieldChart page) as [ch|] eqn:Hchart.
    + change (elements (Some r :: map Some rs)) with (elements (map Some (r :: rs))).
      rewrite elements_present. reflexivity.
    + symmetry. apply Hno. right. right. reflexivity.
  - reflexivity.
Qed.

Lemma handed_yearly (StringToNumber : string -> option Q) (currentYear : Z)
  (y : Envelope (option (list (option (gmap string JsVal))))) (page : Dashboard) :
  (exists d3,
     handed (updateYearlyYieldRaw StringToNumber currentYear) y page = Return d3 /\
     (success y = true -> yearlyYieldChart page <> None ->
      forall items, data y = Some items -> noNull items) /\
     errorContainer d3 = errorContainer page /\
     powerValue d3 = powerValue page /\
     yieldValue d3 = yieldValue page /\
     powerGaugeChart d3 = powerGaugeChart page /\
     powerTimeSeriesChart d3 = powerTimeSeriesChart page /\
     powerChartOverlay d3 = powerChartOverlay page) \/
  (handed (updateYearlyYieldRaw StringToNumber currentYear) y page = Throw typeError /\
   success y = true /\ yearlyYieldChart page <> None /\
   exists items, data y = Some items /\ ~ noNull items).
Proof.
  assert (Hframe : forall data d3,
             updateYearlyYield StringToNumber currentYear data page = Return d3 ->
             errorContainer d3 = errorContainer page /\
             powerValue d3 = powerValue page /\
             yieldValue d3 = yieldValue page /\
             powerGaugeChart d3 = powerGaugeChart page /\
             powerTimeSeriesChart d3 = powerTimeSeriesChart page /\
             powerChartOverlay d3 = powerChartOverlay page).
  { intros data d3 Hrun.
    destruct (updateYearlyYield_frame _ _ _ _ _ Hrun) as (Hg & Ht & Ho & He & _).
    destruct (updateYearlyYield_rendered_cards _ _ _ _ _ Hrun) as [Hp Hy].
    repeat split; assumption. }
  destruct y as [[|] dat]; unfold handed; cbn [success data].
  2: { left. exists page. repeat split; discriminate. }
  destruct dat as [items|].
  2: { destruct (updateYearlyYield_returns StringToNumber currentYear None page) as [d3 Hrun].
       left. exists d3. split; [exact Hrun|]. split; [discriminate|].
       apply (Hframe None), Hrun. }
  destruct (elements_cases items) as [(l & -> & H) | [Hnull H]].
  - change (Some (map Some l)) with (option_map (map Some) (Some l)).
    rewrite updateYearlyYieldRaw_present.
    destruct (updateYearlyYield_returns StringToNumber currentYear (Some l) page)
      as [d3 Hrun].
    left. exists d3. split; [exact Hrun|].
    split; [intros _ _ items H'; injection H' as <-; apply noNull_present|].
    apply (Hframe (Some l)), Hrun.
  - destruct (yearlyYieldChart page) as [ch|] eqn:Hchart.
    + right. destruct items as [|x items].
      { exfalso. apply Hnull. constructor. }
      unfold updateYearlyYieldRaw. rewrite Hchart, H. cbn [bindO].
      split; [reflexivity|]. split; [reflexivity|]. split; [discriminate|].
      exists (x :: items). split; [reflexivity | exact Hnull].
    + assert (Hraw : updateYearlyYieldRaw StringToNumber currentYear (Some items) page
                     = updateYearlyYield StringToNumber currentYear None page).
      { unfold updateYearlyYieldRaw. rewrite Hchart. destruct items; reflexivity. }
      rewrite Hraw.
      destruct (updateYearlyYield_returns StringToNumber currentYear None page) as [d3 Hrun].
      left. exists d3. split; [exact Hrun|]. split; [congruence|].
      apply (Hframe None), Hrun.
Qed.

Section RawCycleFacts.

Variable toLocaleTimeString : Q -> string.
Variable StringToNumber : string -> option Q.
Variable currentYear : Z.

(** The page after the [try] block, resource by resource. *)
Lemma tryBlockRaw_unfold (up : RawUpstream) (d : Dashboard) :
  tryBlockRaw toLocaleTimeString StringToNumber currentYear up d
  = match fetchJson (rawCurrent up) with
    | Throw msg => (beginCycle d, Throw msg)
    | Return c =>
        match handed updateMetricsRaw c (beginCycle d) with
        | Throw msg => (beginCycle d, Throw msg)
        | Return d1 =>
            match fetchJson (rawToday up) with
            | Throw msg => (d1, Throw msg)
            | Return t =>
                match handed (updateTimeSeriesRaw toLocaleTimeString) t d1 with
                | Throw msg => (d1, Throw msg)
                | Return d2 =>
                    match fetchJson (rawYearlyYield up) with
                    | Throw msg => (d2, Throw msg)
                    | Return y =>
                        match handed (updateYearlyYieldRaw StringToNumber currentYear) y d2
                        with
                        | Throw msg => (d2, Throw msg)
                        | Return d3 => (d3, Return tt)
                        end
                    end
                end
            end
        end
    end.
Proof.
  unfold tryBlockRaw, bindC, liftO, modify, attempt.
  destruct (fetchJson (rawCurrent up)) as [c|]; [|reflexivity].
  destruct (handed updateMetricsRaw c (beginCycle d)) as [d1|]; [|reflexivity].
  destruct (fetchJson (rawToday up)) as [t|]; [|reflexivity].
  destruct (handed (updateTimeSeriesRaw toLocaleTimeString) t d1) as [d2|]; [|reflexivity].
  destruct (fetchJson (rawYearlyYield up)) as [y|]; [|reflexivity].
  destruct (handed (updateYearlyYieldRaw StringToNumber currentYear) y d2); reflexivity.
Qed.

(** On payloads of the documented shape the cycle is [fetchData]. *)
Lemma fetchDataRaw_documented_shape (up : Upstream) (d : Dashboard) :
  fetchDataRaw toLocaleTimeString StringToNumber currentYear (rawOf up) d
  = fetchData toLocaleTimeString StringToNumber currentYear up d.
Proof.
  assert (Hjson : forall (A B : Type) (f : A -> B) (r : FetchResult A),
             fetchJson (wellShaped f r)
             = match fetchJson r with
               | Return body => Return (mkEnvelope (success body) (f (data body)))
               | Throw msg => Throw msg
               end).
  { intros A B f [msg | ok status [body | msg]]; cbn [wellShaped fetchJson];
      [reflexivity | |]; destruct (negb ok && (status =? 401)); reflexivity. }
  unfold fetchDataRaw, fetchData. rewrite tryBlockRaw_unfold, tryBlock_unfold.
  cbn [rawOf rawCurrent rawToday rawYearlyYield]. rewrite !Hjson.
  destruct (fetchJson (apiCurrent up)) as [c|]; [|reflexivity].
  unfold handed at 1. cbn [success data updateMetricsRaw]. cbv zeta.
  destruct (success c);
    (destruct (fetchJson (apiToday up)) as [t|]; [|reflexivity]);
    unfold handed at 1; cbn [success data];
    (assert (Hseries : forall page,
               updateTimeSeriesRaw toLocaleTimeString (option_map (map Some) (data t)) page
               = Return (updateTimeSeries toLocaleTimeString (data t) page));
     [intros page; destruct (data t) as [l|]; cbn [option_map updateTimeSeriesRaw];
      [rewrite elements_present|]; reflexivity|]);
    rewrite ?Hseries;
    destruct (success t);
    (destruct (fetchJson (apiYearlyYield up)) as [y|]; [|reflexivity]);
    unfold handed; cbn [success data];
    rewrite ?updateYearlyYieldRaw_present;
    destruct (success y); reflexivity.
Qed.

(** C5, amended: the three resources are fetched, parsed and handed to
    their transforms one after the other.  A parsed body without
    [success] is skipped, whatever its status, and the cycle goes on; a
    body with [success] is transformed and handed to the page.  The
    cycle ends at the first resource whose fetch rejects, whose body does
    not parse, that is answered with 401, or whose transform throws (a
    body with [success] and no [data] for the current reading, an array
    holding [null] for the daily samples and, when the chart exists, for
    the yearly records): the resources before it have been handed over,
    the later ones are neither fetched nor handed over, and the error
    banner is shown. *)
Theorem fetchDataRaw_resources (up : RawUpstream) (d : Dashboard) :
  let cycle := fetchDataRaw toLocaleTimeString StringToNumber currentYear up d in
  let metrics := handed updateMetricsRaw in
  let series := handed (updateTimeSeriesRaw toLocaleTimeString) in
  let yearly := handed (updateYearlyYieldRaw StringToNumber currentYear) in
  (forall c t y d1 d2 d3,
     fetchJson (rawCurrent up) = Return c -> metrics c (beginCycle d) = Return d1 ->
     fetchJson (rawToday up) = Return t -> series t d1 = Return d2 ->
     fetchJson (rawYearlyYield up) = Return y -> yearly y d2 = Return d3 ->
     cycle = d3) /\
  (forall msg,
     fetchJson (rawCurrent up) = Throw msg \/
     (exists c, fetchJson (rawCurrent up) = Return c /\
                metrics c (beginCycle d) = Throw msg) ->
     cycle = showError msg (beginCycle d)) /\
  (forall c d1 msg,
     fetchJson (rawCurrent up) = Return c -> metrics c (beginCycle d) = Return d1 ->
     fetchJson (rawToday up) = Throw msg \/
     (exists t, fetchJson (rawToday up) = Return t /\ series t d1 = Throw msg) ->
     cycle = showError msg d1) /\
  (forall c t d1 d2 msg,
     fetchJson (rawCurrent up) = Return c -> metrics c (beginCycle d) = Return d1 ->
     fetchJson (rawToday up) = Return t -> series t d1 = Return d2 ->
     fetchJson (rawYearlyYield up) = Throw msg \/
     (exists y, fetchJson (rawYearlyYield up) = Return y /\ yearly y d2 = Throw msg) ->
     cycle = showError msg d2) /\
  (forall msg page, errorContainer (showError msg page) <> "") /\
  (forall page,
     (forall data, metrics (mkEnvelope false data) page = Return page) /\
     (forall data, series (mkEnvelope false data) page = Return page) /\
     (forall data, yearly (mkEnvelope false data) page = Return page)) /\
  (forall page,
     (forall data,
        metrics (mkEnvelope true (Some data)) page = Return (updateMetrics data page)) /\
     (exists msg, metrics (mkEnvelope true None) page = Throw msg)) /\
  (forall page,
     (forall samples,
        series (mkEnvelope true (option_map (map Some) samples)) page
        = Return (updateTimeSeries toLocaleTimeString samples page)) /\
     (forall items, ~ noNull items ->
        exists msg, series (mkEnvelope true (Some items)) page = Throw msg)) /\
  (forall page,
     (forall records,
        yearly (mkEnvelope true (option_map (map Some) records)) page
        = updateYearlyYield StringToNumber currentYear records page /\
        exists d3, yearly (mkEnvelope true (option_map (map Some) records)) page = Return d3) /\
     (forall items, ~ noNull items -> yearlyYieldChart page <> None ->
        exists msg, yearly (mkEnvelope true (Some items)) page = Throw msg) /\
     (forall items, yearlyYieldChart page = None ->
        yearly (mkEnvelope true (Some items)) page
        = Return (set_yearlyChartOverlay (showNoData (yearlyChartOverlay page)) page))).
Proof.
  cbv zeta. unfold fetchDataRaw. rewrite tryBlockRaw_unfold.
  split; [|split; [|split; [|split; [|split; [|split; [|split; [|split]]]]]]].
  - intros c t y d1 d2 d3 Hc H1 Ht H2 Hy H3. rewrite Hc, H1, Ht, H2, Hy, H3. reflexivity.
  - intros msg [Hc | (c & Hc & H1)]; [rewrite Hc | rewrite Hc, H1]; reflexivity.
  - intros c d1 msg Hc H1 [Ht | (t & Ht & H2)];
      [rewrite Hc, H1, Ht | rewrite Hc, H1, Ht, H2]; reflexivity.
  - intros c t d1 d2 msg Hc H1 Ht H2 [Hy | (y & Hy & H3)];
      [rewrite Hc, H1, Ht, H2, Hy | rewrite Hc, H1, Ht, H2, Hy, H3]; reflexivity.
  - intros msg page. cbn. discriminate.
  - intros page. repeat split.
  - intros page. split; [reflexivity | exists typeError; reflexivity].
  - intros page. split.
    + intros samples. unfold handed. cbn [success data].
      destruct samples as [l|]; cbn [option_map updateTimeSeriesRaw];
        [rewrite elements_present|]; reflexivity.
    + intros items Hnull. exists typeError. unfold handed. cbn [success data updateTimeSeriesRaw].
      destruct (elements_cases items) as [(l & -> & _) | [_ H]].
      * destruct Hnull. apply noNull_present.
      * rewrite H. reflexivity.
  - intros page. split; [|split].
    + intros records. unfold handed. cbn [success data].
      rewrite updateYearlyYieldRaw_present. split; [reflexivity|].
      apply updateYearlyYield_returns.
    + intros items Hnull Hchart. exists typeError.
      destruct (handed_yearly StringToNumber currentYear (mkEnvelope true (Some items)) page)
        as [(d3 & _ & Hshape & _) | [H _]]; [|exact H].
      destruct Hnull. apply (Hshape eq_refl Hchart items eq_refl).
    + intros items Hchart. unfold handed. cbn [success data].
      assert (Hraw : updateYearlyYieldRaw StringToNumber currentYear (Some items) page
                     = updateYearlyYield StringToNumber currentYear None page).
      { unfold updateYearlyYieldRaw. rewrite Hchart. destruct items; reflexivity. }
      rewrite Hraw. apply updateYearlyYield_noData. left. reflexivity.
Qed.

(** X10: the error banner is empty after a refresh cycle exactly when
    the three resources were fetched and parsed, none was a 401 and no
    transform threw: a current body with [success] carries [data], and
    the arrays of the daily samples and (when the yearly chart exists)
    of the yearly records that come with [success] hold no [null].  Such
    a cycle clears the banner of an earlier one. *)
Theorem fetchDataRaw_banner (up : RawUpstream) (d : Dashboard) :
  errorContainer (fetchDataRaw toLocaleTimeString StringToNumber currentYear up d) = "" <->
  exists c t y,
    fetchJson (rawCurrent up) = Return c /\
    fetchJson (rawToday up) = Return t /\
    fetchJson (rawYearlyYield up) = Return y /\
    (success c = true -> data c <> None) /\
    (success t = true -> forall items, data t = Some items -> noNull items) /\
    (success y = true -> yearlyYieldChart d <> None ->
     forall items, data y = Some items -> noNull items).
Proof.
  unfold fetchDataRaw. rewrite tryBlockRaw_unfold.
  assert (Hb : errorContainer (beginCycle d) = "") by reflexivity.
  assert (Hch : yearlyYieldChart (beginCycle d) = yearlyYieldChart d) by reflexivity.
  generalize dependent (beginCycle d). intros d0 Hb Hch.
  assert (Herr : forall msg page, errorContainer (showError msg page) <> "").
  { intros msg page. cbn. discriminate. }
  destruct (fetchJson (rawCurrent up)) as [c|msg].
  2: { split; [intros H; destruct (Herr _ _ H) | intros (? & ? & ? & H & _); discriminate]. }
  destruct (handed_metrics c d0) as [(d1 & -> & Sc & He1 & Hy1) | (-> & Sc & Dc)].
  2: { split; [intros H; destruct (Herr _ _ H)|].
       intros (c' & ? & ? & H & _ & _ & Hs & _). injection H as <-.
       destruct (Hs Sc Dc). }
  rewrite Hb in He1. rewrite Hch in Hy1. clear Hb Hch d0.
  destruct (fetchJson (rawToday up)) as [t|msg].
  2: { split; [intros H; destruct (Herr _ _ H) | intros (? & ? & ? & _ & H & _); discriminate]. }
  destruct (handed_series toLocaleTimeString t d1)
    as [(d2 & -> & St & He2 & Hy2) | (-> & St & items & Dt & Hnull)].
  2: { split; [intros H; destruct (Herr _ _ H)|].
       intros (? & t' & ? & _ & H & _ & _ & Hs & _). injection H as <-.
       destruct Hnull. apply (Hs St items Dt). }
  rewrite He1 in He2. rewrite Hy1 in Hy2. clear He1 Hy1 d1.
  destruct (fetchJson (rawYearlyYield up)) as [y|msg].
  2: { split; [intros H; destruct (Herr _ _ H)
              | intros (? & ? & ? & _ & _ & H & _); discriminate]. }
  destruct (handed_yearly StringToNumber currentYear y d2)
    as [(d3 & -> & Sy & He3 & _) | (-> & Sy & Hchart & items & Dy & Hnull)].
  - rewrite He2 in He3. rewrite Hy2 in Sy. split; [|intros _; exact He3].
    intros _. exists c, t, y. repeat split; assumption.
  - split; [intros H; destruct (Herr _ _ H)|].
    intros (? & ? & y' & _ & _ & H & _ & _ & Hs). injection H as <-.
    rewrite Hy2 in Hchart. destruct Hnull. apply (Hs Sy Hchart items Dy).
Qed.

End RawCycleFacts.

(** A body with [success] and without [data] on [/api/current], and a
    yearly array that holds [null]: each response parses and is no 401,
    the transform throws, the banner is shown and the later resources do
    not reach their charts. *)
Example fetchDataRaw_success_without_data :
  let up := {| rawCurrent := Response true 200 (Return (mkEnvelope true None));
               rawToday :=
                 Response true 200 (Return (mkEnvelope true (Some (map Some twoSamples))));
               rawYearlyYield :=
                 Response true 200 (Return (mkEnvelope true (Some (map Some twoRecords)))) |} in
  let page := fetchDataRaw exampleTimeLabel exampleStringToNumber 2030 up initialDashboard in
  errorContainer page <> "" /\
  powerTimeSeriesChart page = powerTimeSeriesChart initialDashboard /\
  yearlyYieldChart page = yearlyYieldChart initialDashboard.
Proof. vm_compute. repeat split. discriminate. Qed.

Example fetchDataRaw_null_record :
  let up := {| rawCurrent :=
                 Response true 200
                   (Return (mkEnvelope true (Some {| power := Some 3000%Q; total_yield := None |})));
               rawToday :=
                 Response true 200 (Return (mkEnvelope true (Some (map Some twoSamples))));
               rawYearlyYield := Response true 200 (Return (mkEnvelope true (Some [None]))) |} in
  let page := fetchDataRaw exampleTimeLabel exampleStringToNumber 2030 up initialDashboard in
  errorContainer page <> "" /\
  powerValue page = 3000 /\
  powerTimeSeriesChart page = Some {| tsLabels := ["0"; "1"]; tsData := [300; 200] |} /\
  yearlyYieldChart page = yearlyYieldChart initialDashboard.
Proof. vm_compute. repeat split. discriminate. Qed.

(** X20: when the proxy routes of [/api/current] and [/api/today] answer
    with their own error, the refresh cycle reports nothing about them:
    the cards, the gauge and the line chart stay as they were and the
    overlay of the line chart stays active; the banner is empty exactly
    when the yearly resource is fetched and parsed, is no 401, and its
    transform does not throw. *)
Theorem fetchDataRaw_upstream_outage {J1 J2 : Type}
  (toLocaleTimeString : Q -> string) (StringToNumber : string -> option Q) (currentYear : Z)
  (read1 : J1 -> Outcome (Envelope (option CurrentData)))
  (read2 : J2 -> Outcome (Envelope (option (list (option RawSample)))))
  (error1 error2 : string)
  (upstream1 : Gateway.UpstreamAnswer J1) (upstream2 : Gateway.UpstreamAnswer J2)
  (yearly : FetchResult (option (list (option (gmap string JsVal))))) (d : Dashboard) :
  Gateway.proxy error1 upstream1 = (Gateway.Failed error1, 500) ->
  Gateway.proxy error2 upstream2 = (Gateway.Failed error2, 500) ->
  let up := {| rawCurrent := Gateway.asFetchResult read1 None
                               (Gateway.proxy error1 upstream1);
               rawToday := Gateway.asFetchResult read2 None
                             (Gateway.proxy error2 upstream2);
               rawYearlyYield := yearly |} in
  let d' := fetchDataRaw toLocaleTimeString StringToNumber currentYear up d in
  powerValue d' = powerValue d /\
  yieldValue d' = yieldValue d /\
  powerGaugeChart d' = powerGaugeChart d /\
  powerTimeSeriesChart d' = powerTimeSeriesChart d /\
  powerChartOverlay d' = setActive true (powerChartOverlay d) /\
  (errorContainer d' = "" <->
   exists y,
     fetchJson yearly = Return y /\
     (success y = true -> yearlyYieldChart d <> None ->
      forall items, data y = Some items -> noNull items)).
Proof.
  intros H1 H2 up d'. subst d' up. unfold fetchDataRaw.
  rewrite tryBlockRaw_unfold. cbn [rawCurrent rawToday rawYearlyYield].
  rewrite H1, H2.
  change (fetchJson (Gateway.asFetchResult read1 None (Gateway.Failed error1, 500)))
    with (Return (mkEnvelope false (@None CurrentData))).
  change (fetchJson (Gateway.asFetchResult read2 None (Gateway.Failed error2, 500)))
    with (Return (mkEnvelope false (@None (list (option RawSample))))).
  cbv beta iota. rewrite handed_skipped. cbv beta iota.
  rewrite handed_skipped. cbv beta iota.
  destruct (fetchJson yearly) as [y|msg].
  2: { repeat split; [intros H; discriminate H | intros (y & H & _); discriminate H]. }
  cbv beta iota.
  destruct (handed_yearly StringToNumber currentYear y (beginCycle d))
    as [(d3 & -> & Sy & He & Hp & Hyv & Hg & Ht & Ho) | (-> & Sy & Hchart & items & Dy & Hnull)].
  - cbv beta iota. rewrite Hp, Hyv, Hg, Ht, Ho.
    repeat split; [exists y; split; [reflexivity | exact Sy]|].
    intros _. exact He.
  - cbv beta iota. repeat split; [intros H; discriminate H|].
    intros (y' & H & Hs). injection H as <-.
    destruct Hnull. apply (Hs Sy Hchart items Dy).
Qed.

Lemma fetchDataRaw_upstream_outage_witness :
  let up := {| rawCurrent :=
                 Gateway.asFetchResult
                   (fun _ : unit => Throw "unread") None
                   (Gateway.proxy "Failed to fetch current data" Gateway.UpstreamDown);
               rawToday :=
                 Gateway.asFetchResult
                   (fun _ : unit => Throw "unread") None
                   (Gateway.proxy "Failed to fetch today's data"
                      (Gateway.UpstreamAnswered 502 None));
               rawYearlyYield :=
                 Response true 200 (Return (mkEnvelope true (Some (map Some twoRecords)))) |} in
  let d' := fetchDataRaw exampleTimeLabel exampleStringToNumber 2030 up initialDashboard in
  powerValue d' = powerValue initialDashboard /\
  yieldValue d' = yieldValue initialDashboard /\
  powerGaugeChart d' = powerGaugeChart initialDashboard /\
  powerTimeSeriesChart d' = powerTimeSeriesChart initialDashboard /\
  powerChartOverlay d' = setActive true (powerChartOverlay initialDashboard) /\
  (errorContainer d' = "" <->
   exists y,
     fetchJson (Response true 200 (Return (mkEnvelope true (Some (map Some twoRecords)))))
     = Return y /\
     (success y = true -> yearlyYieldChart initialDashboard <> None ->
      forall items, data y = Some items -> noNull items)).
Proof.
  apply (fetchDataRaw_upstream_outage (J1 := unit) (J2 := unit)
           exampleTimeLabel exampleStringToNumber 2030
           (fun _ => Throw "unread") (fun _ => Throw "unread")
           "Failed to fetch current data" "Failed to fetch today's data"
           Gateway.UpstreamDown (Gateway.UpstreamAnswered 502 None)
           (Response true 200 (Return (mkEnvelope true (Some (map Some twoRecords)))))
           initialDashboard); reflexivity.
Defined.

(** ** The pull-to-refresh gesture *)

Import PullToRefresh.

Lemma touchmove_offset (scrollY : Q) (touches : list Q) (g : Gesture) :
  offsetOk g -> offsetOk (touchmove scrollY touches g).
Proof.
  intros H. unfold touchmove.
  destruct (negb (pulling g)); [exact H|].
  destruct touches as [|clientY [|]]; try exact H.
  destruct (Js.ltb 0 (clientY - startY g) && Qeq_bool scrollY 0); [|exact H].
  left. cbn [translateY]. unfold threshold. split.
  - apply Q.le_max_r.
  - apply Q.max_lub; [|discriminate].
    pose proof (Q.le_min_r (clientY - startY g) (70 * (15 # 10))) as Hmin.
    set (clamped := Qmin (clientY - startY g) (70 * (15 # 10))) in *.
    assert (Hc : (clamped <= 105)%Q) by (eapply Qle_trans; [exact Hmin | discriminate]).
    clearbody clamped. clear Hmin. unfold Qdiv. change (/ 3)%Q with (1 # 3)%Q. lra.
Qed.

Lemma step_offset (g : Gesture) (e : Event) : offsetOk g -> offsetOk (step g e).
Proof.
  intros H. destruct e as [scrollY touches | scrollY touches | | |]; cbn [step].
  - unfold touchstart. destruct touches as [|clientY [|]]; try exact H.
    destruct (Qeq_bool scrollY 0); exact H.
  - apply touchmove_offset, H.
  - unfold touchend. destruct (negb (pulling g)); [exact H|].
    destruct (String.eqb (textContent g) releaseText); left; cbn; split; discriminate.
  - unfold refreshDone. destruct (refreshing g); exact H.
  - unfold timerFires. destruct (timers g); [exact H|]. right. reflexivity.
Qed.

(** X21: through every sequence of touches, settled refreshes and timers
    the indicator stays where the handlers put it: hidden at -12 px, or
    between 0 and 23 px however far the finger is pulled. *)
Theorem gesture_offset (events : list Event) (g : Gesture) :
  offsetOk g -> offsetOk (run g events).
Proof.
  revert g. induction events as [|e events IH]; intros g H; [exact H|].
  change (run g (e :: events)) with (run (step g e) events). apply IH, step_offset, H.
Qed.

Lemma gesture_offset_witness :
  offsetOk idle /\
  offsetOk (run idle [TouchStart 0 [10%Q]; TouchMove 0 [2000%Q]; TouchEnd; RefreshDone; TimerFires]).
Proof.
  assert (H : offsetOk idle) by (right; reflexivity).
  split; [exact H|].
  apply (gesture_offset [TouchStart 0 [10%Q]; TouchMove 0 [2000%Q]; TouchEnd; RefreshDone;
                         TimerFires] idle H).
Defined.

Lemma step_unarmed (g : Gesture) (e : Event) :
  textContent g <> releaseText ->
  arms g e = false ->
  refreshes (step g e) = refreshes g /\ textContent (step g e) <> releaseText.
Proof.
  intros Htext Harm.
  destruct e as [scrollY touches | scrollY touches | | |]; cbn [step].
  - unfold touchstart. destruct touches as [|clientY [|]]; try (split; [reflexivity | exact Htext]).
    destruct (Qeq_bool scrollY 0); split; try reflexivity; exact Htext.
  - unfold touchmove. destruct (pulling g) eqn:Hp; cbn [negb]; [|split; [reflexivity | exact Htext]].
    destruct touches as [|clientY [|]]; try (split; [reflexivity | exact Htext]).
    cbn [arms] in Harm. rewrite Hp in Harm. cbn [andb] in Harm.
    destruct (Qeq_bool scrollY 0); cbn [andb] in Harm.
    + rewrite Harm. destruct (Js.ltb 0 (clientY - startY g)); cbn [andb];
        split; try reflexivity; try exact Htext. cbn. discriminate.
    + rewrite andb_false_r. split; [reflexivity | exact Htext].
  - unfold touchend. destruct (negb (pulling g)); [split; [reflexivity | exact Htext]|].
    destruct (String.eqb (textContent g) releaseText) eqn:E.
    + apply String.eqb_eq in E. contradiction.
    + cbn. split; [reflexivity | discriminate].
  - unfold refreshDone. destruct (refreshing g); split; try reflexivity; exact Htext.
  - unfold timerFires. destruct (timers g); [split; [reflexivity | exact Htext]|].
    cbn. split; [reflexivity | discriminate].
Qed.

(** X22: a refresh is started only by a pull beyond the threshold: from
    an indicator that does not show [Release to refresh], a sequence of
    events in which no move of a single touch, at the top of the page and
    while pulling, lies more than 70 px below the start of the touch
    calls [fetchData] not once. *)
Theorem gesture_needs_long_pull (events : list Event) (g : Gesture) :
  textContent g <> releaseText ->
  everArmed g events = false ->
  refreshes (run g events) = refreshes g /\ textContent (run g events) <> releaseText.
Proof.
  revert g. induction events as [|e events IH]; intros g Htext Harm.
  - split; [reflexivity | exact Htext].
  - cbn [everArmed] in Harm. apply orb_false_iff in Harm. destruct Harm as [He Hrest].
    destruct (step_unarmed g e Htext He) as [Hr Ht].
    destruct (IH (step g e) Ht Hrest) as [Hr' Ht'].
    change (run g (e :: events)) with (run (step g e) events).
    split; [rewrite Hr'; exact Hr | exact Ht'].
Qed.

Lemma gesture_needs_long_pull_witness :
  let events := [TouchStart 0 [100%Q]; TouchMove 0 [170%Q]; TouchMove 0 [90%Q]; TouchEnd;
                 TimerFires] in
  textContent idle <> releaseText /\
  everArmed idle events = false /\
  refreshes (run idle events) = refreshes idle /\
  textContent (run idle events) <> releaseText.
Proof.
  intros events.
  assert (H1 : textContent idle <> releaseText) by discriminate.
  assert (H2 : everArmed idle events = false) by reflexivity.
  split; [exact H1|]. split; [exact H2|].
  apply (gesture_needs_long_pull events idle H1 H2).
Defined.

(** X23: one touch at the top of the page, one move, release.  Pulled
    more than 70 px below the start, the release calls [fetchData] once
    and shows [Refreshing...]; the gesture counts as pulling until the
    refresh has settled.  Pulled down by 70 px or less, the release calls
    nothing and sets the timer that hides the indicator. *)
Theorem gesture_pull_and_release (g : Gesture) (scrollY0 scrollY1 y0 y1 : Q) :
  (scrollY0 == 0)%Q -> (scrollY1 == 0)%Q ->
  let g' := run g [TouchStart scrollY0 [y0]; TouchMove scrollY1 [y1]; TouchEnd] in
  ((70 < y1 - y0)%Q ->
     refreshes g' = S (refreshes g) /\ refreshing g' = S (refreshing g) /\
     textContent g' = refreshingText /\ pulling g' = true /\ timers g' = timers g /\
     pulling (step g' RefreshDone) = false /\ timers (step g' RefreshDone) = S (timers g)) /\
  ((0 < y1 - y0 <= 70)%Q ->
     refreshes g' = refreshes g /\ textContent g' = pullText /\
     pulling g' = false /\ timers g' = S (timers g)).
Proof.
  intros H0 H1. cbv zeta. unfold run. cbn [fold_left step].
  apply Qeq_bool_iff in H0. apply Qeq_bool_iff in H1.
  unfold touchstart. rewrite H0.
  unfold touchmove. cbn [pulling negb startY]. rewrite H1. split.
  - intros Hlong.
    assert (Hpos : Js.ltb 0 (y1 - y0) = true) by (apply ltb_lt; lra).
    assert (Hthr : Js.ltb threshold (y1 - y0) = true) by (apply ltb_lt; unfold threshold; lra).
    rewrite Hpos, Hthr. cbn. repeat split.
  - intros [Hpos Hshort].
    assert (Hpos' : Js.ltb 0 (y1 - y0) = true) by (apply ltb_lt; lra).
    assert (Hthr : Js.ltb threshold (y1 - y0) = false) by (apply ltb_ge; unfold threshold; lra).
    rewrite Hpos', Hthr. cbn. repeat split.
Qed.

Lemma gesture_pull_and_release_witness :
  let g' := run idle [TouchStart 0 [100%Q]; TouchMove 0 [171%Q]; TouchEnd] in
  (0 == 0)%Q /\
  ((70 < 171 - 100)%Q ->
     refreshes g' = S (refreshes idle) /\ refreshing g' = S (refreshing idle) /\
     textContent g' = refreshingText /\ pulling g' = true /\ timers g' = timers idle /\
     pulling (step g' RefreshDone) = false /\
     timers (step g' RefreshDone) = S (timers idle)) /\
  ((0 < 171 - 100 <= 70)%Q ->
     refreshes g' = refreshes idle /\ textContent g' = pullText /\
     pulling g' = false /\ timers g' = S (timers idle)).
Proof.
  split; [reflexivity|].
  apply (gesture_pull_and_release idle 0 0 100 171); reflexivity.
Defined.
